(** * Azure Blob SAS upload demo: a shallow embedding and its properties

    The repository has three programs:
    - the issuance server: parses a connection string, and on
      [POST /upload-urls?count=N] returns [N] upload-URL records, each with
      a freshly signed SAS token;
    - the upload agent ([client.js]): asks for records and PUTs a payload
      to each upload URL, one at a time;
    - the sweep utility ([cleanup.ts]): lists the blobs of the container
      ["images"] and deletes them one by one.

    The vendor SDK, the clock, the random generator and the network are
    outside the repository.  They appear here as oracles: records of
    functions that the embedded code calls, in the order the source calls
    them, with explicit counters for the calls already made. *)

From Stdlib Require Import ZArith String Ascii List Bool Lia.
From Stdlib Require Import Decimal DecimalString DecimalPos DecimalN DecimalZ.
From stdpp Require Import base option list gmap strings.

Local Open Scope string_scope.
Local Open Scope Z_scope.

(** ** Results of calls that may throw *)

Inductive Result (A : Type) : Type :=
| Ok (a : A)
| Throw (message : string).
Arguments Ok {A} a.
Arguments Throw {A} message.

(** ** The JavaScript built-ins the sources use *)

Module JS.

(** A JavaScript string is represented by its UTF-8 encoding, one
    [ascii] per byte.  The separators, digits and patterns the sources
    look for are ASCII, whose bytes occur in UTF-8 only as themselves,
    so splitting, searching and replacing act on the bytes as they act
    on the characters; the white space [parseInt] skips is recognised
    by its encoding. *)

(** [s.split(sep)] for a one-character separator: the pieces between the
    separators, in order; ["".split(sep)] is [[""]]. *)
Fixpoint split (sep : ascii) (s : string) : list string :=
  match s with
  | EmptyString => [EmptyString]
  | String c s' =>
      if Ascii.eqb c sep then EmptyString :: split sep s'
      else match split sep s' with
           | piece :: pieces => String c piece :: pieces
           | [] => [String c EmptyString]
           end
  end.

(** Truthiness of a possibly undefined string ([None] is [undefined]). *)
Definition truthy (v : option string) : bool :=
  match v with
  | Some (String _ _) => true
  | _ => false
  end.

(** [s.substring(a, b)] for an ASCII string [s]: the characters from
    [min a b] up to, not including, [max a b], clipped to the string. *)
Definition substring (a b : nat) (s : string) : string :=
  String.substring (Nat.min a b) (Nat.max a b - Nat.min a b) s.

(** [s.replace(pattern, replacement)] with a string pattern: only the
    first occurrence is replaced.  (The replacement strings used by the
    sources hold no [$], so no substitution pattern is involved.) *)
Fixpoint drop (n : nat) (s : string) : string :=
  match n, s with
  | S n', String _ s' => drop n' s'
  | _, _ => s
  end.

Fixpoint replace (pattern replacement s : string) : string :=
  if String.prefix pattern s then replacement +:+ drop (String.length pattern) s
  else match s with
       | EmptyString => EmptyString
       | String c s' => String c (replace pattern replacement s')
       end.

(** Numbers, as far as the sources need them: [parseInt] yields [NaN] or
    an integer.  Integers are kept exact; the only consumer compares the
    value with 0 and with 2^32, which rounding to a double preserves, and
    [-0] is falsy like [0]. *)
Inductive Number : Type :=
| NaN
| Num (z : Z).

Definition code (c : ascii) : Z := Z.of_N (N_of_ascii c).

(** The white space and line terminators [parseInt] skips.  Encoded in
    one byte: TAB, LF, VT, FF, CR, SP. *)
Definition is_whitespace (c : ascii) : bool :=
  let n := code c in ((9 <=? n) && (n <=? 13)) || (n =? 32).

(** Encoded in two bytes: U+00A0, the no-break space. *)
Definition is_whitespace2 (c1 c2 : ascii) : bool :=
  (code c1 =? 194) && (code c2 =? 160).

(** Encoded in three bytes: U+1680; U+2000 to U+200A, U+2028, U+2029 and
    U+202F; U+205F; U+3000; U+FEFF. *)
Definition is_whitespace3 (c1 c2 c3 : ascii) : bool :=
  let n1 := code c1 in
  let n2 := code c2 in
  let n3 := code c3 in
  ((n1 =? 225) && (n2 =? 154) && (n3 =? 128))
  || ((n1 =? 226) && (n2 =? 128)
      && (((128 <=? n3) && (n3 <=? 138)) || (n3 =? 168) || (n3 =? 169)
          || (n3 =? 175)))
  || ((n1 =? 226) && (n2 =? 129) && (n3 =? 159))
  || ((n1 =? 227) && (n2 =? 128) && (n3 =? 128))
  || ((n1 =? 239) && (n2 =? 187) && (n3 =? 191)).

Fixpoint trim_start (s : string) : string :=
  match s with
  | String c1 s1 =>
      if is_whitespace c1 then trim_start s1
      else
        match s1 with
        | String c2 s2 =>
            if is_whitespace2 c1 c2 then trim_start s2
            else
              match s2 with
              | String c3 s3 =>
                  if is_whitespace3 c1 c2 c3 then trim_start s3 else s
              | EmptyString => s
              end
        | EmptyString => s
        end
  | EmptyString => EmptyString
  end.

(** Value of a digit in the given radix, if it is one. *)
Definition digit_value (radix : Z) (c : ascii) : option Z :=
  let n := code c in
  let v := if (48 <=? n) && (n <=? 57) then n - 48
           else if (97 <=? n) && (n <=? 122) then n - 87
           else if (65 <=? n) && (n <=? 90) then n - 55
           else 36 in
  if v <? radix then Some v else None.

(** The longest prefix of radix digits, as a number; [None] when it is
    empty. *)
Fixpoint parse_digits (radix : Z) (acc : option Z) (s : string) : option Z :=
  match s with
  | String c s' =>
      match digit_value radix c with
      | Some d => parse_digits radix (Some (radix * default 0 acc + d)) s'
      | None => acc
      end
  | EmptyString => acc
  end.

Definition strip_sign (s : string) : Z * string :=
  match s with
  | String c s' =>
      if Ascii.eqb c "-" then (-1, s')
      else if Ascii.eqb c "+" then (1, s')
      else (1, s)
  | EmptyString => (1, s)
  end.

Definition strip_radix_prefix (s : string) : Z * string :=
  match s with
  | String c0 (String c1 s') =>
      if Ascii.eqb c0 "0" && (Ascii.eqb c1 "x" || Ascii.eqb c1 "X")
      then (16, s') else (10, s)
  | _ => (10, s)
  end.

(** [parseInt(s)] with no radix argument. *)
Definition parseInt (input : string) : Number :=
  let '(sign, s1) := strip_sign (trim_start input) in
  let '(radix, s2) := strip_radix_prefix s1 in
  match parse_digits radix None s2 with
  | None => NaN
  | Some m => Num (sign * m)
  end.

(** [a || b] on numbers: [NaN] and [0] are falsy. *)
Definition or_else (a b : Number) : Number :=
  match a with
  | NaN => b
  | Num z => if z =? 0 then b else a
  end.

(** [String(n)] for an integer of magnitude below 10^21, as in a template
    literal. *)
Definition Number_toString (z : Z) : string :=
  NilZero.string_of_int (Z.to_int z).

(** [ToLength]: clamp to [0, 2^53 - 1]. *)
Definition ToLength (n : Number) : Z :=
  match n with
  | NaN => 0
  | Num z => Z.min (Z.max z 0) (2 ^ 53 - 1)
  end.

(** [Array.from({ length: n })]: an array of [ToLength n] elements, or a
    [RangeError] when that exceeds the largest array length 2^32 - 1. *)
Definition Array_from_length (n : Number) : Result nat :=
  let len := ToLength n in
  if len <=? 2 ^ 32 - 1 then Ok (Z.to_nat len)
  else Throw "Invalid array length".

End JS.

(** ** The parts of [@azure/storage-blob] the sources call *)

Module SDK.

(** [BlobSASPermissions]: one flag per permission. *)
Record BlobSASPermissions : Type := {
  read : bool;
  add : bool;
  create : bool;
  write : bool;
  delete : bool;
  deleteVersion : bool;
  tag : bool;
  move : bool;
  execute : bool;
  setImmutabilityPolicy : bool;
  permanentDelete : bool
}.

Definition no_permission : BlobSASPermissions :=
  {| read := false; add := false; create := false; write := false;
     delete := false; deleteVersion := false; tag := false; move := false;
     execute := false; setImmutabilityPolicy := false;
     permanentDelete := false |}.

(** The permission a token must carry to be write-only. *)
Definition write_only : BlobSASPermissions :=
  {| read := false; add := false; create := false; write := true;
     delete := false; deleteVersion := false; tag := false; move := false;
     execute := false; setImmutabilityPolicy := false;
     permanentDelete := false |}.

Definition set_flag (p : BlobSASPermissions) (c : ascii)
  : option BlobSASPermissions :=
  let letter (x : ascii) := Ascii.eqb c x in
  if letter "r"%char then Some {| read := true; add := add p; create := create p; write := write p; delete := delete p; deleteVersion := deleteVersion p; tag := tag p; move := move p; execute := execute p; setImmutabilityPolicy := setImmutabilityPolicy p; permanentDelete := permanentDelete p |}
  else if letter "a"%char then Some {| read := read p; add := true; create := create p; write := write p; delete := delete p; deleteVersion := deleteVersion p; tag := tag p; move := move p; execute := execute p; setImmutabilityPolicy := setImmutabilityPolicy p; permanentDelete := permanentDelete p |}
  else if letter "c"%char then Some {| read := read p; add := add p; create := true; write := write p; delete := delete p; deleteVersion := deleteVersion p; tag := tag p; move := move p; execute := execute p; setImmutabilityPolicy := setImmutabilityPolicy p; permanentDelete := permanentDelete p |}
  else if letter "w"%char then Some {| read := read p; add := add p; create := create p; write := true; delete := delete p; deleteVersion := deleteVersion p; tag := tag p; move := move p; execute := execute p; setImmutabilityPolicy := setImmutabilityPolicy p; permanentDelete := permanentDelete p |}
  else if letter "d"%char then Some {| read := read p; add := add p; create := create p; write := write p; delete := true; deleteVersion := deleteVersion p; tag := tag p; move := move p; execute := execute p; setImmutabilityPolicy := setImmutabilityPolicy p; permanentDelete := permanentDelete p |}
  else if letter "x"%char then Some {| read := read p; add := add p; create := create p; write := write p; delete := delete p; deleteVersion := true; tag := tag p; move := move p; execute := execute p; setImmutabilityPolicy := setImmutabilityPolicy p; permanentDelete := permanentDelete p |}
  else if letter "t"%char then Some {| read := read p; add := add p; create := create p; write := write p; delete := delete p; deleteVersion := deleteVersion p; tag := true; move := move p; execute := execute p; setImmutabilityPolicy := setImmutabilityPolicy p; permanentDelete := permanentDelete p |}
  else if letter "m"%char then Some {| read := read p; add := add p; create := create p; write := write p; delete := delete p; deleteVersion := deleteVersion p; tag := tag p; move := true; execute := execute p; setImmutabilityPolicy := setImmutabilityPolicy p; permanentDelete := permanentDelete p |}
  else if letter "e"%char then Some {| read := read p; add := add p; create := create p; write := write p; delete := delete p; deleteVersion := deleteVersion p; tag := tag p; move := move p; execute := true; setImmutabilityPolicy := setImmutabilityPolicy p; permanentDelete := permanentDelete p |}
  else if letter "i"%char then Some {| read := read p; add := add p; create := create p; write := write p; delete := delete p; deleteVersion := deleteVersion p; tag := tag p; move := move p; execute := execute p; setImmutabilityPolicy := true; permanentDelete := permanentDelete p |}
  else if letter "y"%char then Some {| read := read p; add := add p; create := create p; write := write p; delete := delete p; deleteVersion := deleteVersion p; tag := tag p; move := move p; execute := execute p; setImmutabilityPolicy := setImmutabilityPolicy p; permanentDelete := true |}
  else None.

Fixpoint parse_from (p : BlobSASPermissions) (s : string)
  : Result BlobSASPermissions :=
  match s with
  | EmptyString => Ok p
  | String c s' =>
      match set_flag p c with
      | Some p' => parse_from p' s'
      | None => Throw ("Invalid permission: " +:+ String c EmptyString)
      end
  end.

(** [BlobSASPermissions.parse(s)]: the letters r a c w d x t m e i y each
    switch one flag on; any other letter is a [RangeError]. *)
Definition BlobSASPermissions_parse (s : string) : Result BlobSASPermissions :=
  parse_from no_permission s.

Inductive SASProtocol : Type :=
| Https
| HttpsAndHttp.

(** The options object handed to [generateBlobSASQueryParameters]; the
    two dates are milliseconds since the epoch. *)
Record BlobSASSignatureValues : Type := {
  containerName : string;
  blobName : string;
  permissions : BlobSASPermissions;
  protocol : SASProtocol;
  startsOn : Z;
  expiresOn : Z
}.

(** The two arguments of a call
    [new StorageSharedKeyCredential(accountName, accountKey)], as they
    are written ([None] is [undefined]); the credential is known here by
    the arguments it is constructed from. *)
Record StorageSharedKeyCredential : Type := {
  accountName : option string;
  accountKey : option string
}.

(** The constructor: it decodes the key with [Buffer.from(accountKey,
    "base64")], which throws a [TypeError] when the key is [undefined]
    and accepts every string. *)
Definition new_StorageSharedKeyCredential (args : StorageSharedKeyCredential)
  : Result StorageSharedKeyCredential :=
  match accountKey args with
  | Some _ => Ok args
  | None =>
      Throw "The first argument must be of type string or an instance of Buffer, ArrayBuffer, or Array or an Array-like Object. Received undefined"
  end.

End SDK.

(** ** The issuance server, [index.ts] *)

Module Server.

(** The body of the loop of [parseConnectionString]: the part is split
    on [=]; the first two pieces are the key and the value, and the pair
    is stored when both are non-empty.  An assignment to ["__proto__"]
    on a plain object sets no own property when the value is a string,
    so it leaves [out] as it is. *)
Definition parse_part (out : gmap string string) (p : string)
  : gmap string string :=
  let pieces := JS.split "=" p in
  let key := pieces !! 0%nat in
  let value := pieces !! 1%nat in
  match key, value with
  | Some k, Some v =>
      if JS.truthy key && JS.truthy value && negb (String.eqb k "__proto__")
      then <[k := v]> out
      else out
  | _, _ => out
  end.

(** [parseConnectionString]: the [;]-separated parts are taken in order,
    so a later part overrides an earlier one with the same key. *)
Definition parseConnectionString (connectionString : string)
  : gmap string string :=
  foldl parse_part ∅ (JS.split ";" connectionString).

(** The arguments with which the credential is constructed at start-up:
    the [AccountName] and [AccountKey] entries of the parsed connection
    string. *)
Definition sharedKeyCredential (connectionString : string)
  : SDK.StorageSharedKeyCredential :=
  let parsed := parseConnectionString connectionString in
  {| SDK.accountName := parsed !! "AccountName";
     SDK.accountKey := parsed !! "AccountKey" |}.

(** Start-up, up to [app.listen]: a missing or empty
    [AZURE_STORAGE_CONNECTION_STRING] is fatal; so is a throw of the
    credential's constructor, and a throw of
    [BlobServiceClient.fromConnectionString], which reads the connection
    string on its own and whose outcome is [fromConnectionString]. *)
Definition startup (fromConnectionString : string -> Result unit)
    (env : option string) : Result SDK.StorageSharedKeyCredential :=
  match env with
  | Some (String _ _ as connectionString) =>
      match SDK.new_StorageSharedKeyCredential
              (sharedKeyCredential connectionString) with
      | Ok credential =>
          match fromConnectionString connectionString with
          | Ok _ => Ok credential
          | Throw message => Throw message
          end
      | Throw message => Throw message
      end
  | _ =>
      Throw "Azure Storage Connection String not found. Make sure 'AZURE_STORAGE_CONNECTION_STRING' is set in docker-compose.yml"
  end.

(** What the process reads from outside: the [n]-th reading of the
    system clock (milliseconds since the epoch) and the [n]-th value of
    [Math.random().toString(36)]. *)
Record Runtime : Type := {
  clock : nat -> Z;
  random36 : nat -> string
}.

(** The storage SDK as the handler uses it. *)
Record Storage : Type := {
  createIfNotExists : string -> Result unit;
  blobUrl : string -> string -> string;
  generateBlobSASQueryParameters :
    SDK.BlobSASSignatureValues -> SDK.StorageSharedKeyCredential -> Result string
}.

(** Clock readings and random draws made so far, and the values handed
    to the signer so far, oldest first. *)
Record State : Type := {
  ticks : nat;
  draws : nat;
  signed : list SDK.BlobSASSignatureValues
}.

Record UploadUrl : Type := {
  blobName : string;
  uploadUrl : string;
  fileUrl : string
}.

Inductive QueryValue : Type :=
| QUndefined
| QString (s : string).

(** [String(v)], as applied by [parseInt] to its argument. *)
Definition ToString (v : QueryValue) : string :=
  match v with
  | QUndefined => "undefined"
  | QString s => s
  end.

Inductive Response : Type :=
| Json (urls : list UploadUrl)
| Status500 (body : string).

(** Computations that read and advance the state and may throw. *)
Definition M (A : Type) : Type := State -> Result (A * State).

Definition ret {A} (a : A) : M A := fun st => Ok (a, st).

Definition bind {A B} (m : M A) (k : A -> M B) : M B :=
  fun st =>
    match m st with
    | Ok (a, st') => k a st'
    | Throw e => Throw e
    end.

Definition lift {A} (r : Result A) : M A :=
  fun st =>
    match r with
    | Ok a => Ok (a, st)
    | Throw e => Throw e
    end.

Notation "'do' x <- m ; k" := (bind m (fun x => k))
  (at level 10, x name, m at level 100, k at level 200).

(** [f] run [n] times in sequence, results in order: the [map] over the
    array of [n] elements. *)
Fixpoint map_times {A} (n : nat) (f : M A) : M (list A) :=
  match n with
  | O => ret []
  | S n' => do a <- f; do l <- map_times n' f; ret (a :: l)
  end.

Section Handler.

Variable rt : Runtime.
Variable sdk : Storage.
Variable credential : SDK.StorageSharedKeyCredential.

Definition containerName : string := "images".

(** [Date.now()], and [new Date()] read as milliseconds. *)
Definition Date_now : M Z :=
  fun st =>
    Ok (clock rt (ticks st),
        {| ticks := S (ticks st); draws := draws st; signed := signed st |}).

Definition Math_random36 : M string :=
  fun st =>
    Ok (random36 rt (draws st),
        {| ticks := ticks st; draws := S (draws st); signed := signed st |}).

(** [generateBlobSASQueryParameters(values, sharedKeyCredential).toString()] *)
Definition sign (values : SDK.BlobSASSignatureValues) : M string :=
  fun st =>
    match generateBlobSASQueryParameters sdk values credential with
    | Ok token =>
        Ok (token,
            {| ticks := ticks st; draws := draws st;
               signed := signed st ++ [values] |})
    | Throw e => Throw e
    end.

(** The callback of [Array.from({ length: numUrls }).map(...)]. *)
Definition make_upload_url : M UploadUrl :=
  do now <- Date_now;
  do r <- Math_random36;
  let name :=
    "image-" +:+ JS.Number_toString now +:+ "-" +:+ JS.substring 2 15 r
      +:+ ".jpg" in
  let url := blobUrl sdk containerName name in
  do perms <- lift (SDK.BlobSASPermissions_parse "w");
  do starts <- Date_now;
  do t <- Date_now;
  do sasToken <- sign {| SDK.containerName := containerName;
                      SDK.blobName := name;
                      SDK.permissions := perms;
                      SDK.protocol := SDK.HttpsAndHttp;
                      SDK.startsOn := starts;
                      SDK.expiresOn := t + 5 * 60 * 1000 |};
  ret {| blobName := name;
         uploadUrl := url +:+ "?" +:+ sasToken;
         fileUrl := url |}.

(** The body of the [try] block of [app.post('/upload-urls', ...)]. *)
Definition upload_urls (count : QueryValue) : M (list UploadUrl) :=
  do created <- lift (createIfNotExists sdk containerName);
  let numUrls := JS.or_else (JS.parseInt (ToString count)) (JS.Num 1) in
  do len <- lift (JS.Array_from_length numUrls);
  map_times len make_upload_url.

(** The handler: the records as JSON, or status 500 with the message of
    whatever was thrown. *)
Definition handler (count : QueryValue) (st : State) : Response :=
  match upload_urls count st with
  | Ok (urls, _) => Json urls
  | Throw message => Status500 ("<h1>Error</h1><p>" +:+ message +:+ "</p>")
  end.

End Handler.

End Server.

(** ** The upload agent, [client.js] *)

Module Client.

(** What the agent prints, one constructor per [console] call of the
    upload loop and its surroundings. *)
Inductive Message : Type :=
| Received_upload_urls (urls : list Server.UploadUrl)
| Created_fake_image
| Starting_uploads
| Uploading_to (blobName : string)
| Success_uploaded_to (blobName : string)
| File_URL (fileUrl : string)
| Failed_to_upload (blobName : string)
| Status_line (status : Z) (statusText : string)
| Error_text (errorText : string)
| Error_uploading (blobName : string) (message : string)
| Upload_process_completed.

(** What [await fetch(url, { method: 'PUT', ... })] comes to: a response
    with its status and its body text (reading the body may itself
    fail), or a rejection. *)
Inductive FetchResult : Type :=
| Responded (status : Z) (statusText : string) (text : Result string)
| Rejected (message : string).

(** [response.ok] *)
Definition ok (status : Z) : bool := (200 <=? status) && (status <=? 299).

(** The printed lines and the URLs a PUT was sent to, oldest first.
    Method, headers and body are the same for every PUT. *)
Record State : Type := {
  log : list Message;
  requests : list string
}.

Definition initial : State := {| log := []; requests := [] |}.

Definition say (m : Message) (st : State) : State :=
  {| log := log st ++ [m]; requests := requests st |}.

Definition sent (url : string) (st : State) : State :=
  {| log := log st; requests := requests st ++ [url] |}.

(** The hostname conversion of the upload loop. *)
Definition clientUploadUrl (uploadUrl : string) : string :=
  JS.replace "azurite:10000" "localhost:10000" uploadUrl.

Section Agent.

(** The network: the outcome of the [n]-th PUT, sent to the given URL. *)
Variable fetch : nat -> string -> FetchResult.

(** The [for (const urlData of data.urls)] loop with its [try]/[catch]. *)
Fixpoint upload_all (urls : list Server.UploadUrl) (st : State) : State :=
  match urls with
  | [] => st
  | urlData :: rest =>
      let st := say (Uploading_to (Server.blobName urlData)) st in
      let url := clientUploadUrl (Server.uploadUrl urlData) in
      let uploadResponse := fetch (length (requests st)) url in
      let st := sent url st in
      let st :=
        match uploadResponse with
        | Responded status statusText text =>
            if ok status then
              say (File_URL (Server.fileUrl urlData))
                (say (Success_uploaded_to (Server.blobName urlData)) st)
            else
              let st := say (Failed_to_upload (Server.blobName urlData)) st in
              let st := say (Status_line status statusText) st in
              match text with
              | Ok errorText => say (Error_text errorText) st
              | Throw message =>
                  say (Error_uploading (Server.blobName urlData) message) st
              end
        | Rejected message =>
            say (Error_uploading (Server.blobName urlData) message) st
        end in
      upload_all rest st
  end.

(** The handler of the issuance response. *)
Definition upload_process (urls : list Server.UploadUrl) : State :=
  let st := say (Received_upload_urls urls) initial in
  let st := say Created_fake_image st in
  let st := say Starting_uploads st in
  let st := upload_all urls st in
  say Upload_process_completed st.

End Agent.

End Client.

(** ** The sweep utility, [cleanup.ts] *)

Module Cleanup.

Record BlobItem : Type := {
  name : string;
  contentLength : Z
}.

(** The storage SDK as the sweep uses it: the outcome of
    [containerClient.exists()]; the blobs [listBlobsFlat()] yields,
    followed by normal completion ([None]) or by a throw; the outcome of
    the [n]-th [blobClient.delete] call, made on the given blob. *)
Record Storage : Type := {
  container_exists : Result bool;
  listBlobsFlat : list BlobItem * option string;
  delete : nat -> string -> Result unit
}.

(** One constructor per [console] call. *)
Inductive Message : Type :=
| Starting_cleanup
| Cleaning_up_container (containerName : string)
| Container_does_not_exist (containerName : string)
| Container_exists (containerName : string)
| Found (blobName : string) (bytes : Z)
| Container_already_empty
| Found_blobs_to_delete (n : nat)
| Successfully_deleted (blobName : string)
| Failed_to_delete (blobName : string) (message : string)
| Separator
| Cleanup_summary
| Total_blobs_found (n : nat)
| Total_successfully_deleted (n : nat)
| Total_failed_to_delete (n : nat)
| All_blobs_deleted
| Some_blobs_not_deleted
| No_blobs_deleted
| Cleanup_completed
| Cleanup_failed (message : string)
| Error_dump (message : string).

(** The printed lines and the blobs a delete call was made on, oldest
    first. *)
Record State : Type := {
  log : list Message;
  attempted : list string
}.

Definition initial : State := {| log := []; attempted := [] |}.

Definition say (m : Message) (st : State) : State :=
  {| log := log st ++ [m]; attempted := attempted st |}.

Definition attempt (blobName : string) (st : State) : State :=
  {| log := log st; attempted := attempted st ++ [blobName] |}.

Section Sweep.

Variable storage : Storage.

(** STEP 3: the deletion loop with its two counters. *)
Fixpoint delete_each (blobsToDelete : list string)
    (successCount failCount : nat) (st : State) : nat * nat * State :=
  match blobsToDelete with
  | [] => (successCount, failCount, st)
  | blobName :: rest =>
      let outcome := delete storage (length (attempted st)) blobName in
      let st := attempt blobName st in
      match outcome with
      | Ok _ =>
          delete_each rest (S successCount) failCount
            (say (Successfully_deleted blobName) st)
      | Throw message =>
          delete_each rest successCount (S failCount)
            (say (Failed_to_delete blobName message) st)
      end
  end.

Definition cleanupContainer (containerName : string) (st : State)
  : Result unit * State :=
  let st := say (Cleaning_up_container containerName) st in
  match container_exists storage with
  | Throw message => (Throw message, st)
  | Ok false => (Ok tt, say (Container_does_not_exist containerName) st)
  | Ok true =>
      let st := say (Container_exists containerName) st in
      let '(blobs, failure) := listBlobsFlat storage in
      let st :=
        fold_left (fun st blob => say (Found (name blob) (contentLength blob)) st)
          blobs st in
      let blobsToDelete := map name blobs in
      match failure with
      | Some message => (Throw message, st)
      | None =>
          if Nat.eqb (length blobsToDelete) 0 then
            (Ok tt, say Container_already_empty st)
          else
            let st := say (Found_blobs_to_delete (length blobsToDelete)) st in
            let '(successCount, failCount, st) :=
              delete_each blobsToDelete 0 0 st in
            let st := say Separator st in
            let st := say Cleanup_summary st in
            let st := say Separator st in
            let st := say (Total_blobs_found (length blobsToDelete)) st in
            let st := say (Total_successfully_deleted successCount) st in
            let st := say (Total_failed_to_delete failCount) st in
            let st := say Separator st in
            let st :=
              if Nat.eqb successCount (length blobsToDelete)
              then say All_blobs_deleted st
              else if Nat.ltb 0 successCount
                   then say Some_blobs_not_deleted st
                   else say No_blobs_deleted st in
            (Ok tt, st)
      end
  end.

(** [main]: the exit status of the process and what it printed and
    attempted.  The status is 1 through [process.exit(1)] and 0 when
    [main] runs to its end. *)
Definition main : Z * State :=
  let st := say Starting_cleanup initial in
  match cleanupContainer "images" st with
  | (Ok _, st) => (0, say Cleanup_completed st)
  | (Throw message, st) =>
      (1, say (Error_dump message) (say (Cleanup_failed message) st))
  end.

End Sweep.

End Cleanup.

(** ** Vocabulary of the statements *)

Module Text.

(** [c] occurs in [s]. *)
Fixpoint contains (c : ascii) (s : string) : bool :=
  match s with
  | EmptyString => false
  | String a s' => Ascii.eqb a c || contains c s'
  end.

(** The part of [s] before its first [c]; all of [s] when there is none. *)
Fixpoint before_first (c : ascii) (s : string) : string :=
  match s with
  | EmptyString => EmptyString
  | String a s' => if Ascii.eqb a c then EmptyString else String a (before_first c s')
  end.

Definition is_decimal_digit (c : ascii) : bool :=
  (48 <=? JS.code c) && (JS.code c <=? 57).

(** [s] is empty or starts with a character that can follow a decimal
    numeral without changing how [parseInt] reads it: not a digit, and
    not the [x] of a radix prefix. *)
Definition ends_number (s : string) : bool :=
  match s with
  | EmptyString => true
  | String c _ =>
      negb (is_decimal_digit c) && negb (Ascii.eqb c "x") && negb (Ascii.eqb c "X")
  end.

(** After leading white space and an optional sign, [s] starts with a
    decimal digit. *)
Definition numeric_prefix (s : string) : bool :=
  match snd (JS.strip_sign (JS.trim_start s)) with
  | EmptyString => false
  | String c _ => is_decimal_digit c
  end.

(** [s] is a decimal integer numeral: an optional [-] and one or more
    decimal digits, nothing else. *)
Fixpoint all_digits (s : string) : bool :=
  match s with
  | EmptyString => true
  | String c s' => is_decimal_digit c && all_digits s'
  end.

Definition is_numeric (s : string) : bool :=
  match s with
  | EmptyString => false
  | String c s' =>
      if Ascii.eqb c "-" then negb (String.eqb s' "") && all_digits s'
      else all_digits s
  end.

(** [pattern] occurs in [s] as a contiguous run. *)
Fixpoint occurs (pattern s : string) : bool :=
  String.prefix pattern s ||
  match s with
  | EmptyString => false
  | String _ s' => occurs pattern s'
  end.

(** The value of the digits [d], most significant first, appended to the
    number [acc]. *)
Fixpoint uint_acc (d : uint) (acc : Z) : Z :=
  match d with
  | Nil => acc
  | D0 d => uint_acc d (10 * acc + 0)
  | D1 d => uint_acc d (10 * acc + 1)
  | D2 d => uint_acc d (10 * acc + 2)
  | D3 d => uint_acc d (10 * acc + 3)
  | D4 d => uint_acc d (10 * acc + 4)
  | D5 d => uint_acc d (10 * acc + 5)
  | D6 d => uint_acc d (10 * acc + 6)
  | D7 d => uint_acc d (10 * acc + 7)
  | D8 d => uint_acc d (10 * acc + 8)
  | D9 d => uint_acc d (10 * acc + 9)
  end.

End Text.

(** ** What one run of the map callback reads and builds

    A run of the callback that starts when [t] clock readings and [d]
    random draws have been made reads the clock at [t], [t+1] and [t+2]
    and the random generator at [d]. *)

Module Trace.

Section Run.

Variable rt : Server.Runtime.
Variable sdk : Server.Storage.
Variable credential : SDK.StorageSharedKeyCredential.

Definition suffix_at (d : nat) : string :=
  JS.substring 2 15 (Server.random36 rt d).

Definition name_at (t d : nat) : string :=
  "image-" +:+ JS.Number_toString (Server.clock rt t) +:+ "-"
    +:+ suffix_at d +:+ ".jpg".

Definition values_at (t d : nat) : SDK.BlobSASSignatureValues :=
  {| SDK.containerName := "images";
     SDK.blobName := name_at t d;
     SDK.permissions := SDK.write_only;
     SDK.protocol := SDK.HttpsAndHttp;
     SDK.startsOn := Server.clock rt (S t);
     SDK.expiresOn := Server.clock rt (S (S t)) + 5 * 60 * 1000 |}.

Definition record_at (t d : nat) : Result Server.UploadUrl :=
  match Server.generateBlobSASQueryParameters sdk (values_at t d) credential with
  | Ok token =>
      Ok {| Server.blobName := name_at t d;
            Server.uploadUrl :=
              Server.blobUrl sdk "images" (name_at t d) +:+ "?" +:+ token;
            Server.fileUrl := Server.blobUrl sdk "images" (name_at t d) |}
  | Throw e => Throw e
  end.

(** The state after [n] runs of the callback from [st]. *)
Definition after (n : nat) (st : Server.State) : Server.State :=
  {| Server.ticks := Server.ticks st + 3 * n;
     Server.draws := Server.draws st + n;
     Server.signed :=
       Server.signed st ++
       map (fun k => values_at (Server.ticks st + 3 * k) (Server.draws st + k))
         (seq 0 n) |}.

End Run.

End Trace.

(** ** Outcomes of the delete calls of a sweep

    The number of blobs of [blobs] whose delete call succeeds, and the
    number whose call throws, when the first of these calls is the
    [n]-th one. *)

Module Outcome.

Fixpoint succeeded (storage : Cleanup.Storage) (n : nat) (blobs : list string)
  : nat :=
  match blobs with
  | [] => 0%nat
  | blob :: rest =>
      match Cleanup.delete storage n blob with
      | Ok _ => S (succeeded storage (S n) rest)
      | Throw _ => succeeded storage (S n) rest
      end
  end.

Fixpoint failed (storage : Cleanup.Storage) (n : nat) (blobs : list string)
  : nat :=
  match blobs with
  | [] => 0%nat
  | blob :: rest =>
      match Cleanup.delete storage n blob with
      | Ok _ => failed storage (S n) rest
      | Throw _ => S (failed storage (S n) rest)
      end
  end.

End Outcome.

(** ** What the agent reports for one record

    The lines the upload loop is to print for a record, read off the
    description of the per-transfer outcomes: the announcement, then for
    a 2xx response the success line and the file URL; for any other
    response the failure line, the status and the body text (or, when
    reading the body throws, the error line in its place); for an
    exception the error line. *)

Module Report.

Definition report (urlData : Server.UploadUrl) (outcome : Client.FetchResult)
  : list Client.Message :=
  Client.Uploading_to (Server.blobName urlData) ::
  match outcome with
  | Client.Responded status statusText text =>
      if (200 <=? status) && (status <=? 299) then
        [ Client.Success_uploaded_to (Server.blobName urlData);
          Client.File_URL (Server.fileUrl urlData) ]
      else
        [ Client.Failed_to_upload (Server.blobName urlData);
          Client.Status_line status statusText;
          match text with
          | Ok errorText => Client.Error_text errorText
          | Throw message =>
              Client.Error_uploading (Server.blobName urlData) message
          end ]
  | Client.Rejected message =>
      [ Client.Error_uploading (Server.blobName urlData) message ]
  end.

(** The reports of the records [urls], the first of which is sent with
    the [n]-th PUT. *)
Fixpoint reports (fetch : nat -> string -> Client.FetchResult) (n : nat)
    (urls : list Server.UploadUrl) : list Client.Message :=
  match urls with
  | [] => []
  | urlData :: rest =>
      report urlData
        (fetch n (Client.clientUploadUrl (Server.uploadUrl urlData)))
      ++ reports fetch (S n) rest
  end.

End Report.

(** ** Sample surroundings *)

Module Sample.

(** The Azurite connection string of the README. *)
Definition azurite : string :=
  "DefaultEndpointsProtocol=http;AccountName=devstoreaccount1;AccountKey=Eby8vdM02xNOcqFlqUwJPLlmEtlCDXJ1OUzFT50uSRZ6IFsuFq2UVErCz4I6tq/K1SZFPTOtr/KBHBeksoGMGw==;BlobEndpoint=http://127.0.0.1:10000/devstoreaccount1;".

Definition azurite_key : string :=
  "Eby8vdM02xNOcqFlqUwJPLlmEtlCDXJ1OUzFT50uSRZ6IFsuFq2UVErCz4I6tq/K1SZFPTOtr/KBHBeksoGMGw==".

(** A clock that advances by one millisecond between two readings, and a
    random generator whose draws all differ. *)
Definition ticking : Server.Runtime :=
  {| Server.clock := fun n => 1763247782909 + Z.of_nat n;
     Server.random36 := fun n => "0.2n9zyybjrf4" +:+ JS.Number_toString (Z.of_nat n) |}.

(** A clock that stands still over the request, and a random generator
    that repeats itself. *)
Definition frozen : Server.Runtime :=
  {| Server.clock := fun _ => 1763247782909;
     Server.random36 := fun _ => "0.2n9zyybjrf4" |}.

(** A storage that is reachable and a signer that accepts every request;
    the token shows the window it was asked for. *)
Definition storage : Server.Storage :=
  {| Server.createIfNotExists := fun _ => Ok tt;
     Server.blobUrl := fun container blob =>
       "http://azurite:10000/devstoreaccount1/" +:+ container +:+ "/" +:+ blob;
     Server.generateBlobSASQueryParameters := fun values _ =>
       Ok ("sv=2025-11-05&spr=https,http&st="
             +:+ JS.Number_toString (SDK.startsOn values)
             +:+ "&se=" +:+ JS.Number_toString (SDK.expiresOn values)
             +:+ "&sr=b&sp=w&sig=c2ln") |}.

Definition credential : SDK.StorageSharedKeyCredential :=
  Server.sharedKeyCredential azurite.

Definition start : Server.State :=
  {| Server.ticks := 0; Server.draws := 0; Server.signed := [] |}.

(** A container with three blobs; the delete of the second one fails. *)
Definition three_blobs : Cleanup.Storage :=
  {| Cleanup.container_exists := Ok true;
     Cleanup.listBlobsFlat :=
       ([ {| Cleanup.name := "image-1.jpg"; Cleanup.contentLength := 67 |};
          {| Cleanup.name := "image-2.jpg"; Cleanup.contentLength := 67 |};
          {| Cleanup.name := "image-3.jpg"; Cleanup.contentLength := 67 |} ],
        None);
     Cleanup.delete := fun n _ =>
       if Nat.eqb n 1 then Throw "The specified blob does not exist." else Ok tt |}.

(** No container. *)
Definition no_container : Cleanup.Storage :=
  {| Cleanup.container_exists := Ok false;
     Cleanup.listBlobsFlat := ([], None);
     Cleanup.delete := fun _ _ => Ok tt |}.

(** An empty container. *)
Definition empty_container : Cleanup.Storage :=
  {| Cleanup.container_exists := Ok true;
     Cleanup.listBlobsFlat := ([], None);
     Cleanup.delete := fun _ _ => Ok tt |}.

(** A storage endpoint nobody listens on: the existence check is
    rejected.  A listing, were it asked for, would complete. *)
Definition unreachable : Cleanup.Storage :=
  {| Cleanup.container_exists := Throw "connect ECONNREFUSED 127.0.0.1:10000";
     Cleanup.listBlobsFlat := ([], None);
     Cleanup.delete := fun _ _ => Ok tt |}.

(** Three records as the issuance server returns them, and a network
    that accepts the first PUT, answers 403 to the second and drops the
    third. *)
Definition three_records : list Server.UploadUrl :=
  [ {| Server.blobName := "image-1.jpg";
       Server.uploadUrl := "http://azurite:10000/devstoreaccount1/images/image-1.jpg?sv=2025-11-05&sp=w&sig=c2ln";
       Server.fileUrl := "http://azurite:10000/devstoreaccount1/images/image-1.jpg" |};
    {| Server.blobName := "image-2.jpg";
       Server.uploadUrl := "http://azurite:10000/devstoreaccount1/images/image-2.jpg?sv=2025-11-05&sp=w&sig=c2ln";
       Server.fileUrl := "http://azurite:10000/devstoreaccount1/images/image-2.jpg" |};
    {| Server.blobName := "image-3.jpg";
       Server.uploadUrl := "http://azurite:10000/devstoreaccount1/images/image-3.jpg?sv=2025-11-05&sp=w&sig=c2ln";
       Server.fileUrl := "http://azurite:10000/devstoreaccount1/images/image-3.jpg" |} ].

Definition flaky (n : nat) (url : string) : Client.FetchResult :=
  match n with
  | O => Client.Responded 201 "Created" (Ok "")
  | S O => Client.Responded 403 "Forbidden" (Ok "AuthenticationFailed")
  | _ => Client.Rejected "fetch failed"
  end.

(** A signer that rejects the request for the blob that the second run
    of the callback names (the run that starts at the fourth clock
    reading and the second random draw of [rt]), and accepts the
    others. *)
Definition fails_on_second (rt : Server.Runtime) : Server.Storage :=
  {| Server.createIfNotExists := fun _ => Ok tt;
     Server.blobUrl := Server.blobUrl storage;
     Server.generateBlobSASQueryParameters := fun values cred =>
       if String.eqb (SDK.blobName values) (Trace.name_at rt 3 1)
       then Throw "Invalid key"
       else Server.generateBlobSASQueryParameters storage values cred |}.

(** A container whose listing yields two blobs and then fails. *)
Definition broken_listing : Cleanup.Storage :=
  {| Cleanup.container_exists := Ok true;
     Cleanup.listBlobsFlat :=
       ([ {| Cleanup.name := "image-1.jpg"; Cleanup.contentLength := 67 |};
          {| Cleanup.name := "image-2.jpg"; Cleanup.contentLength := 67 |} ],
        Some "read ECONNRESET");
     Cleanup.delete := fun _ _ => Ok tt |}.

End Sample.

(** ** Connection strings written part by part *)

Module Config.

(** [pieces.join(sep)] *)
Fixpoint join (sep : string) (pieces : list string) : string :=
  match pieces with
  | [] => ""
  | p :: rest =>
      match rest with
      | [] => p
      | _ :: _ => p +:+ sep +:+ join sep rest
      end
  end.

(** A key or a value that the parser can hand back as it was written:
    not empty, and free of [=] and [;]. *)
Definition plain (s : string) : bool :=
  negb (String.eqb s "") && negb (Text.contains "=" s)
  && negb (Text.contains ";" s).

Definition well_formed (kv : string * string) : bool :=
  plain (fst kv) && plain (snd kv) && negb (String.eqb (fst kv) "__proto__").

Definition render (kv : string * string) : string :=
  fst kv +:+ "=" +:+ snd kv.

(** The connection string that lists the pairs in order. *)
Definition connection_string (pairs : list (string * string)) : string :=
  join ";" (map render pairs).

(** A part the parser stores nothing for: its key piece or its value
    piece is missing or empty. *)
Definition ignored (p : string) : bool :=
  negb (JS.truthy (JS.split "=" p !! 0%nat) && JS.truthy (JS.split "=" p !! 1%nat)).

End Config.

(** ** Query values *)

Module Query.

(** [s] is made of white space that [parseInt] skips, and of nothing
    else. *)
Definition all_whitespace (s : string) : bool :=
  String.eqb (JS.trim_start s) "".

End Query.

(** ** The upload agent as a whole, [client.js] *)

Module Script.

(** What the request to the issuance server and the reading of its body
    as JSON come to: the request is rejected, or the body is read, as
    the [urls] of the object this server sends or with a parse error. *)
Inductive Backend : Type :=
| Unreachable (message : string)
| Answered (json : Result (list Server.UploadUrl)).

(** The run of the script: the upload process, or the one line of the
    final [catch]. *)
Inductive Outcome : Type :=
| Uploaded (st : Client.State)
| Error_fetching_upload_urls (message : string).

(** [fetch(...).then(response => response.json()).then(async data => ...)
    .catch(...)] *)
Definition client (backend : Backend)
    (fetch : nat -> string -> Client.FetchResult) : Outcome :=
  match backend with
  | Unreachable message => Error_fetching_upload_urls message
  | Answered (Throw message) => Error_fetching_upload_urls message
  | Answered (Ok urls) => Uploaded (Client.upload_process fetch urls)
  end.

(** The PUTs of a run. *)
Definition requests (o : Outcome) : list string :=
  match o with
  | Uploaded st => Client.requests st
  | Error_fetching_upload_urls _ => []
  end.

(** [response.json()] on an answer of the issuance server: the [urls] of
    a JSON answer; for a status-500 answer, whose body is HTML, the
    syntax error of the JSON parser, whose message is [syntax_error]. *)
Definition response_json (syntax_error : string -> string)
    (res : Server.Response) : Result (list Server.UploadUrl) :=
  match res with
  | Server.Json urls => Ok urls
  | Server.Status500 body => Throw (syntax_error body)
  end.

(** The agent run against the issuance server: it posts
    [/upload-urls?count=5] and works on the answer. *)
Definition against_server (rt : Server.Runtime) (sdk : Server.Storage)
    (credential : SDK.StorageSharedKeyCredential) (st : Server.State)
    (syntax_error : string -> string)
    (fetch : nat -> string -> Client.FetchResult) : Outcome :=
  client
    (Answered
       (response_json syntax_error
          (Server.handler rt sdk credential (Server.QString "5") st)))
    fetch.

End Script.

(** ** What the sweep prints *)

Module SweepLog.

(** The line of the deletion loop for each blob of [blobs], in order,
    when the first delete call of these is the [n]-th one: the success
    line, or the failure line with the message of what was thrown. *)
Fixpoint deletion_lines (storage : Cleanup.Storage) (n : nat)
    (blobs : list string) : list Cleanup.Message :=
  match blobs with
  | [] => []
  | blob :: rest =>
      match Cleanup.delete storage n blob with
      | Ok _ => Cleanup.Successfully_deleted blob
      | Throw message => Cleanup.Failed_to_delete blob message
      end :: deletion_lines storage (S n) rest
  end.

(** The line printed for each blob the listing yields. *)
Definition found_lines (blobs : list Cleanup.BlobItem) : list Cleanup.Message :=
  map (fun blob => Cleanup.Found (Cleanup.name blob) (Cleanup.contentLength blob))
    blobs.

(** The closing line, by the numbers of failed and succeeded calls. *)
Definition verdict (succeeded failed : nat) : Cleanup.Message :=
  if Nat.eqb failed 0 then Cleanup.All_blobs_deleted
  else if Nat.eqb succeeded 0 then Cleanup.No_blobs_deleted
       else Cleanup.Some_blobs_not_deleted.

End SweepLog.

(** * Properties *)

#[local] Arguments String.append !_ _ / : simpl nomatch.

(** ** The built-ins on sample inputs *)

Example split_semicolon :
  JS.split ";" "a=1;b=2;" = ["a=1"; "b=2"; ""].
Proof. reflexivity. Qed.

Example parseInt_examples :
  JS.parseInt "42" = JS.Num 42 /\ JS.parseInt "  -7px" = JS.Num (-7) /\
  JS.parseInt "abc" = JS.NaN /\ JS.parseInt "0x1F" = JS.Num 31 /\
  JS.parseInt "undefined" = JS.NaN /\ JS.parseInt "0x" = JS.NaN.
Proof. repeat split; reflexivity. Qed.

Example parseInt_skips_unicode_white_space :
  JS.parseInt (String "194" (String "160" "5")) = JS.Num 5 /\
  JS.parseInt (String "239" (String "187" (String "191" " 12px"))) = JS.Num 12 /\
  JS.parseInt (String "226" (String "128" (String "139" "5"))) = JS.NaN.
Proof. repeat split; reflexivity. Qed.

Example toString_examples :
  JS.Number_toString 1763247782909 = "1763247782909" /\
  JS.Number_toString 0 = "0" /\ JS.Number_toString (-3) = "-3".
Proof. repeat split; reflexivity. Qed.

Example replace_first_only :
  JS.replace "ab" "X" "cabab" = "cXab".
Proof. reflexivity. Qed.

(** ** Decimal numerals and [parseInt] *)

Lemma uint_acc_value d : forall acc,
  Text.uint_acc d acc =
  Z.of_N (Unsigned.of_lu (Decimal.rev d)) + acc * 10 ^ Z.of_N (Unsigned.usize d).
Proof.
  induction d; intros acc; simpl Text.uint_acc; simpl Unsigned.usize;
    [ simpl; lia | .. ];
    unfold Decimal.rev; simpl Decimal.revapp;
    rewrite (Unsigned.of_lu_revapp d); simpl (Unsigned.of_lu (_ Nil));
    rewrite IHd;
    rewrite N2Z.inj_succ, Z.pow_succ_r by lia;
    rewrite N2Z.inj_add, N2Z.inj_mul, N2Z.inj_pow; simpl Z.of_N; ring.
Qed.

Lemma uint_acc_of_uint d : Text.uint_acc d 0 = Z.of_uint d.
Proof.
  rewrite uint_acc_value. unfold Z.of_uint.
  rewrite Unsigned.of_uint_alt. lia.
Qed.

Lemma uint_acc_to_uint p : Text.uint_acc (Pos.to_uint p) 0 = Z.pos p.
Proof.
  rewrite uint_acc_of_uint. unfold Z.of_uint.
  now rewrite DecimalPos.Unsigned.of_to.
Qed.

Lemma digit_value_not_digit c :
  Text.is_decimal_digit c = false -> JS.digit_value 10 c = None.
Proof.
  unfold Text.is_decimal_digit, JS.digit_value. intros ->.
  destruct ((97 <=? JS.code c) && (JS.code c <=? 122)) eqn:E1;
    [ apply andb_true_iff in E1 as [E1 _]; apply Z.leb_le in E1 | ].
  - destruct (JS.code c - 87 <? 10) eqn:E; [apply Z.ltb_lt in E; lia | reflexivity].
  - destruct ((65 <=? JS.code c) && (JS.code c <=? 90)) eqn:E2;
      [ apply andb_true_iff in E2 as [E2 _]; apply Z.leb_le in E2 | reflexivity ].
    destruct (JS.code c - 55 <? 10) eqn:E; [apply Z.ltb_lt in E; lia | reflexivity].
Qed.

Lemma parse_digits_stops o rest :
  Text.ends_number rest = true -> JS.parse_digits 10 o rest = o.
Proof.
  destruct rest as [|c r]; [reflexivity|]. simpl. intros H.
  apply andb_true_iff in H as [H _]. apply andb_true_iff in H as [H _].
  apply negb_true_iff in H. now rewrite (digit_value_not_digit c H).
Qed.

Ltac eval_digit :=
  match goal with
  | |- context [JS.digit_value 10 ?c] =>
      let v := eval vm_compute in (JS.digit_value 10 c) in
      change (JS.digit_value 10 c) with v
  end.

Lemma parse_digits_uint d : forall o rest,
  JS.parse_digits 10 o (NilEmpty.string_of_uint d +:+ rest) =
  JS.parse_digits 10
    (match d with Nil => o | _ => Some (Text.uint_acc d (default 0 o)) end) rest.
Proof.
  induction d; intros o rest; [reflexivity | ..];
    cbn [NilEmpty.string_of_uint String.append JS.parse_digits];
    eval_digit; cbv iota; rewrite IHd; destruct d; reflexivity.
Qed.

Lemma strip_radix_prefix_decimal c s :
  (match s with
   | EmptyString => true
   | String c1 _ => negb (Ascii.eqb c1 "x") && negb (Ascii.eqb c1 "X")
   end = true) ->
  JS.strip_radix_prefix (String c s) = (10, String c s).
Proof.
  destruct s as [|c1 r]; [reflexivity|]. simpl. intros H.
  apply andb_true_iff in H as [H1 H2].
  apply negb_true_iff in H1, H2. rewrite H1, H2.
  now rewrite andb_false_r.
Qed.

Lemma digit_not_x c :
  Text.is_decimal_digit c = true ->
  negb (Ascii.eqb c "x") && negb (Ascii.eqb c "X") = true.
Proof.
  intros H.
  destruct (Ascii.eqb_spec c "x") as [->|_]; [discriminate H|].
  destruct (Ascii.eqb_spec c "X") as [->|_]; [discriminate H|].
  reflexivity.
Qed.

(** A string that starts with an ASCII character other than white
    space is left as it is. *)
Lemma trim_start_keeps c s :
  JS.is_whitespace c = false -> JS.code c < 128 ->
  JS.trim_start (String c s) = String c s.
Proof.
  intros Hw Hc. cbn [JS.trim_start]. rewrite Hw.
  destruct s as [|c2 s2]; [reflexivity|].
  assert (H2 : JS.is_whitespace2 c c2 = false).
  { unfold JS.is_whitespace2. apply andb_false_iff. left.
    apply Z.eqb_neq. lia. }
  rewrite H2. destruct s2 as [|c3 s3]; [reflexivity|].
  assert (H3 : JS.is_whitespace3 c c2 c3 = false).
  { unfold JS.is_whitespace3. cbv zeta.
    replace (JS.code c =? 225) with false by (symmetry; apply Z.eqb_neq; lia).
    replace (JS.code c =? 226) with false by (symmetry; apply Z.eqb_neq; lia).
    replace (JS.code c =? 227) with false by (symmetry; apply Z.eqb_neq; lia).
    replace (JS.code c =? 239) with false by (symmetry; apply Z.eqb_neq; lia).
    reflexivity. }
  now rewrite H3.
Qed.

Lemma digit_is_ascii c : Text.is_decimal_digit c = true -> JS.code c < 128.
Proof.
  unfold Text.is_decimal_digit. intros H.
  apply andb_true_iff in H as [_ H]. apply Z.leb_le in H. lia.
Qed.

Lemma digit_not_sign_or_space c :
  Text.is_decimal_digit c = true ->
  JS.is_whitespace c = false /\ Ascii.eqb c "-" = false /\ Ascii.eqb c "+" = false.
Proof.
  intros H. repeat split.
  - unfold Text.is_decimal_digit in H. unfold JS.is_whitespace.
    apply andb_true_iff in H as [H1 H2]. apply Z.leb_le in H1, H2.
    apply orb_false_iff; split; [apply andb_false_iff; right|]; lia.
  - destruct (Ascii.eqb_spec c "-") as [->|_]; [discriminate H|reflexivity].
  - destruct (Ascii.eqb_spec c "+") as [->|_]; [discriminate H|reflexivity].
Qed.

(** The numeral of a non-empty digit sequence starts with a digit, and
    its second character, if any, is a digit too. *)
Lemma string_of_uint_head d :
  d <> Nil ->
  exists c s, NilEmpty.string_of_uint d = String c s /\
    Text.is_decimal_digit c = true /\
    match s with
    | EmptyString => True
    | String c1 _ => Text.is_decimal_digit c1 = true
    end.
Proof.
  destruct d as [|d|d|d|d|d|d|d|d|d|d]; [congruence|..]; intros _;
    simpl; eexists _, _; (split; [reflexivity|]); (split; [reflexivity|]);
    destruct d; simpl; try reflexivity; exact I.
Qed.

(** A numeral followed by something that ends it is read back by
    [parse_digits] and keeps its radix. *)
Lemma parse_unsigned d rest :
  d <> Nil -> Text.ends_number rest = true ->
  JS.strip_radix_prefix (NilEmpty.string_of_uint d +:+ rest) =
    (10, NilEmpty.string_of_uint d +:+ rest) /\
  JS.parse_digits 10 None (NilEmpty.string_of_uint d +:+ rest) =
    Some (Text.uint_acc d 0).
Proof.
  intros Hd Hrest. split.
  - destruct (string_of_uint_head d Hd) as (c & s & -> & _ & Hs).
    simpl. apply strip_radix_prefix_decimal.
    destruct s as [|c1 s1]; simpl.
    + destruct rest as [|c1 r]; [reflexivity|]. simpl in Hrest.
      apply andb_true_iff in Hrest as [Hrest H3].
      apply andb_true_iff in Hrest as [_ H2]. now rewrite H2, H3.
    + now apply digit_not_x.
  - rewrite parse_digits_uint, (parse_digits_stops _ _ Hrest).
    destruct d; [congruence | reflexivity ..].
Qed.

(** [parseInt] reads back what [String(z)] wrote, whatever follows the
    numeral, as long as it does not continue it. *)
Lemma parseInt_Number_toString z rest :
  Text.ends_number rest = true ->
  JS.parseInt (JS.Number_toString z +:+ rest) = JS.Num z.
Proof.
  intros Hrest.
  assert (Hpos : forall p,
    JS.parseInt (NilEmpty.string_of_uint (Pos.to_uint p) +:+ rest) = JS.Num (Z.pos p)).
  { intros p. pose proof (Unsigned.to_uint_nonnil p) as Hd.
    destruct (parse_unsigned _ rest Hd Hrest) as [Hr Hp].
    destruct (string_of_uint_head _ Hd) as (c & s & Hs & Hc & _).
    destruct (digit_not_sign_or_space c Hc) as (Hw & Hm & Hpl).
    assert (Ht : JS.trim_start (NilEmpty.string_of_uint (Pos.to_uint p) +:+ rest)
                 = NilEmpty.string_of_uint (Pos.to_uint p) +:+ rest).
    { rewrite Hs. simpl String.append.
      apply trim_start_keeps; [exact Hw | now apply digit_is_ascii]. }
    assert (Hsg : JS.strip_sign (NilEmpty.string_of_uint (Pos.to_uint p) +:+ rest)
                  = (1, NilEmpty.string_of_uint (Pos.to_uint p) +:+ rest)).
    { rewrite Hs. simpl. now rewrite Hm, Hpl. }
    unfold JS.parseInt. rewrite Ht, Hsg, Hr, Hp, uint_acc_to_uint.
    reflexivity. }
  destruct z as [|p|p].
  - destruct rest as [|c r]; [reflexivity|].
    simpl in Hrest.
    apply andb_true_iff in Hrest as [Hrest H3].
    apply andb_true_iff in Hrest as [H1 H2].
    apply negb_true_iff in H1, H2, H3.
    unfold JS.parseInt. change (JS.Number_toString 0) with "0".
    simpl String.append.
    rewrite (trim_start_keeps "0" (String c r) eq_refl eq_refl).
    cbn [JS.strip_sign]. change (Ascii.eqb "0" "-") with false.
    change (Ascii.eqb "0" "+") with false. cbv iota.
    cbn [JS.strip_radix_prefix]. rewrite H2, H3. simpl.
    change (JS.digit_value 10 "0") with (Some 0). cbv iota.
    now rewrite (digit_value_not_digit c H1).
  - unfold JS.Number_toString. simpl Z.to_int. unfold NilZero.string_of_int, NilZero.string_of_uint.
    pose proof (Unsigned.to_uint_nonnil p) as Hd.
    destruct (Pos.to_uint p) eqn:E; try congruence; rewrite <- E; apply Hpos.
  - unfold JS.Number_toString. simpl Z.to_int. unfold NilZero.string_of_int, NilZero.string_of_uint.
    pose proof (Unsigned.to_uint_nonnil p) as Hd.
    destruct (parse_unsigned _ rest Hd Hrest) as [Hr Hp].
    assert (Hstr : (match Pos.to_uint p with
                    | Nil => "0"
                    | _ => NilEmpty.string_of_uint (Pos.to_uint p)
                    end) = NilEmpty.string_of_uint (Pos.to_uint p)).
    { destruct (Pos.to_uint p); congruence. }
    rewrite Hstr. unfold JS.parseInt. simpl String.append.
    rewrite (trim_start_keeps "-" _ eq_refl eq_refl).
    cbn [JS.strip_sign]. change (Ascii.eqb "-" "-") with true. cbv iota.
    rewrite Hr, Hp, uint_acc_to_uint. reflexivity.
Qed.

(** ** The issuance handler *)

Section HandlerFacts.

Variable rt : Server.Runtime.
Variable sdk : Server.Storage.
Variable credential : SDK.StorageSharedKeyCredential.

Local Open Scope nat_scope.

Abbreviation make := (Server.make_upload_url rt sdk credential).
Abbreviation record_at := (Trace.record_at rt sdk credential).
Abbreviation values_at := (Trace.values_at rt).
Abbreviation after := (Trace.after rt).

(** One run of the callback: the record [record_at] describes, three
    clock readings and one random draw later. *)
Lemma make_upload_url_run st :
  make st =
  match record_at (Server.ticks st) (Server.draws st) with
  | Ok r => Ok (r, after 1 st)
  | Throw e => Throw e
  end.
Proof.
  unfold Server.make_upload_url, Trace.record_at, Server.bind, Server.Date_now,
    Server.Math_random36, Server.lift, Server.sign, Server.ret. simpl.
  change (Server.generateBlobSASQueryParameters sdk _ credential)
    with (Server.generateBlobSASQueryParameters sdk
            (values_at (Server.ticks st) (Server.draws st)) credential).
  destruct (Server.generateBlobSASQueryParameters sdk _ credential); [|reflexivity].
  unfold Trace.after, Trace.values_at, Trace.name_at, Trace.suffix_at. simpl.
  repeat f_equal; lia.
Qed.

Lemma after_0 st : after 0 st = st.
Proof.
  destruct st as [t d l]. unfold Trace.after. simpl.
  rewrite app_nil_r. f_equal; lia.
Qed.

Lemma after_S n st : after n (after 1 st) = after (S n) st.
Proof.
  unfold Trace.after. cbn [Server.ticks Server.draws Server.signed].
  f_equal; try lia.
  rewrite <- app_assoc. f_equal.
  change (seq 0 (S n)) with (0 :: seq 1 n).
  rewrite <- seq_shift, map_cons, List.map_map. cbn [seq map app].
  f_equal. apply map_ext. intros k. f_equal; lia.
Qed.

(** [n] runs of the callback that all succeed: [n] records, the [k]-th
    being the one described by [record_at] for the readings it makes. *)
Lemma map_times_run n : forall st urls st',
  Server.map_times n make st = Ok (urls, st') ->
  st' = after n st /\ length urls = n /\
  forall k r, urls !! k = Some r ->
    record_at (Server.ticks st + 3 * k) (Server.draws st + k) = Ok r.
Proof.
  induction n as [|n IH]; intros st urls st' H.
  - injection H as <- <-. rewrite after_0. repeat split. intros k r Hk.
    rewrite lookup_nil in Hk. discriminate.
  - cbn [Server.map_times] in H. unfold Server.bind in H.
    rewrite make_upload_url_run in H.
    destruct (record_at (Server.ticks st) (Server.draws st)) as [r0|] eqn:Hr0;
      [|discriminate].
    destruct (Server.map_times n make (after 1 st)) as [[l st2]|] eqn:Hrest;
      [|discriminate].
    injection H as <- <-.
    destruct (IH _ _ _ Hrest) as (-> & Hlen & Hk).
    rewrite after_S. repeat split; [simpl; lia|].
    intros [|k] r Hlook.
    + injection Hlook as <-. rewrite <- Hr0. f_equal; lia.
    + apply Hk in Hlook. rewrite <- Hlook.
      unfold Trace.after. cbn [Server.ticks Server.draws]. f_equal; lia.
Qed.

(** [n] runs succeed when the signer accepts the values of each of
    them. *)
Lemma map_times_ok n : forall st,
  (forall k, k < n -> exists token,
      Server.generateBlobSASQueryParameters sdk
        (values_at (Server.ticks st + 3 * k) (Server.draws st + k)) credential
      = Ok token) ->
  exists urls, Server.map_times n make st = Ok (urls, after n st).
Proof.
  induction n as [|n IH]; intros st Hsign.
  - exists []. simpl. unfold Server.ret. now rewrite after_0.
  - cbn [Server.map_times]. unfold Server.bind.
    rewrite make_upload_url_run. unfold Trace.record_at.
    destruct (Hsign 0) as [token Htoken]; [lia|].
    rewrite !Nat.add_0_r in Htoken. rewrite Htoken.
    destruct (IH (after 1 st)) as [l ->].
    + intros k Hk. destruct (Hsign (S k)) as [t Ht]; [lia|].
      exists t. rewrite <- Ht. unfold Trace.after.
      cbn [Server.ticks Server.draws]. f_equal. f_equal; lia.
    + eexists. unfold Server.ret. now rewrite after_S.
Qed.

Lemma upload_urls_run count st :
  Server.upload_urls rt sdk credential count st =
  match Server.createIfNotExists sdk "images" with
  | Ok _ =>
      match JS.Array_from_length
              (JS.or_else (JS.parseInt (Server.ToString count)) (JS.Num 1)) with
      | Ok len => Server.map_times len make st
      | Throw e => Throw e
      end
  | Throw e => Throw e
  end.
Proof.
  unfold Server.upload_urls, Server.bind, Server.lift, Server.containerName.
  destruct (Server.createIfNotExists sdk "images"); [|reflexivity].
  destruct (JS.Array_from_length _); reflexivity.
Qed.

End HandlerFacts.

(** ** Blob names determine the reading and the suffix they are built from *)

Lemma string_length_app (s1 s2 : string) :
  String.length (s1 +:+ s2) = (String.length s1 + String.length s2)%nat.
Proof. induction s1 as [|c s1 IH]; simpl; [reflexivity | now rewrite IH]. Qed.

Lemma string_app_inv_tail (s1 s2 t : string) :
  s1 +:+ t = s2 +:+ t -> s1 = s2.
Proof.
  revert s2. induction s1 as [|c s1 IH]; intros [|c2 s2] H; simpl in H.
  - reflexivity.
  - apply (f_equal String.length) in H. simpl in H.
    rewrite string_length_app in H. lia.
  - apply (f_equal String.length) in H. simpl in H.
    rewrite string_length_app in H. lia.
  - injection H as -> H. f_equal. now apply IH.
Qed.

Lemma name_at_inj rt t d t' d' :
  Trace.name_at rt t d = Trace.name_at rt t' d' ->
  Server.clock rt t = Server.clock rt t' /\
  Trace.suffix_at rt d = Trace.suffix_at rt d'.
Proof.
  unfold Trace.name_at. intros H. simpl in H.
  injection H as H.
  assert (Hclock : Server.clock rt t = Server.clock rt t').
  { apply (f_equal JS.parseInt) in H.
    rewrite !parseInt_Number_toString in H by reflexivity.
    now injection H. }
  split; [exact Hclock|].
  rewrite Hclock in H. apply String.app_inj in H.
  injection H as H. now apply string_app_inv_tail in H.
Qed.

(** ** C1: what each token asserts *)

(** C1, as the code has it.  Every record of a successful response has
    its own entry among the values handed to the signer, and its
    [uploadUrl] is its blob URL, a [?] and the token signed for that
    entry.  The entry names the container ["images"] and the record's
    blob, carries the write-only permission and the protocol
    HTTPS-and-HTTP.  Its [startsOn] is the clock reading made when the
    options are built and its [expiresOn] is five minutes after the NEXT
    clock reading: exactly five minutes after [startsOn] when the two
    readings agree. *)
Theorem C1_token_scope_and_window
    (rt : Server.Runtime) (sdk : Server.Storage)
    (credential : SDK.StorageSharedKeyCredential)
    (count : Server.QueryValue) (st st' : Server.State)
    (urls : list Server.UploadUrl) (k : nat) (r : Server.UploadUrl) :
  Server.upload_urls rt sdk credential count st = Ok (urls, st') ->
  urls !! k = Some r ->
  Server.handler rt sdk credential count st = Server.Json urls /\
  exists values token,
    Server.signed st' !! (length (Server.signed st) + k)%nat = Some values /\
    Server.generateBlobSASQueryParameters sdk values credential = Ok token /\
    Server.uploadUrl r =
      Server.blobUrl sdk "images" (Server.blobName r) +:+ "?" +:+ token /\
    SDK.containerName values = "images" /\
    SDK.blobName values = Server.blobName r /\
    SDK.permissions values = SDK.write_only /\
    SDK.protocol values = SDK.HttpsAndHttp /\
    SDK.startsOn values = Server.clock rt (Server.ticks st + 3 * k + 1) /\
    SDK.expiresOn values =
      Server.clock rt (Server.ticks st + 3 * k + 2) + 5 * 60 * 1000 /\
    (Server.clock rt (Server.ticks st + 3 * k + 2) =
       Server.clock rt (Server.ticks st + 3 * k + 1) ->
     SDK.expiresOn values = SDK.startsOn values + 5 * 60 * 1000).
Proof.
  intros Hrun Hk. split.
  { unfold Server.handler. now rewrite Hrun. }
  rewrite upload_urls_run in Hrun.
  destruct (Server.createIfNotExists sdk "images"); [|discriminate].
  destruct (JS.Array_from_length _) as [len|]; [|discriminate].
  apply map_times_run in Hrun as (-> & Hlen & Hrec).
  specialize (Hrec k r Hk). unfold Trace.record_at in Hrec.
  set (t := (Server.ticks st + 3 * k)%nat) in *.
  set (d := (Server.draws st + k)%nat) in *.
  destruct (Server.generateBlobSASQueryParameters sdk (Trace.values_at rt t d) credential)
    as [token|] eqn:Hsign; [|discriminate].
  injection Hrec as <-.
  exists (Trace.values_at rt t d), token.
  assert (Hlt : (k < len)%nat) by (apply lookup_lt_Some in Hk; lia).
  split.
  { unfold Trace.after. cbn [Server.signed].
    rewrite lookup_app_r by lia.
    replace (length (Server.signed st) + k - length (Server.signed st))%nat with k by lia.
    rewrite list_lookup_fmap.
    rewrite (lookup_seq_lt 0 len k Hlt). reflexivity. }
  cbn [Server.uploadUrl Server.blobName SDK.containerName SDK.blobName
       SDK.permissions SDK.protocol SDK.startsOn SDK.expiresOn Trace.values_at].
  replace (t + 1)%nat with (S t) by lia.
  replace (t + 2)%nat with (S (S t)) by lia.
  repeat split; try assumption.
  intros ->. reflexivity.
Qed.

Lemma C1_token_scope_and_window_witness :
  exists values token,
    [ Trace.values_at Sample.frozen 0 0 ] !! 0%nat = Some values /\
    Server.generateBlobSASQueryParameters Sample.storage values Sample.credential
      = Ok token /\
    SDK.expiresOn values = SDK.startsOn values + 5 * 60 * 1000.
Proof.
  destruct (C1_token_scope_and_window Sample.frozen Sample.storage
              Sample.credential (Server.QString "1") Sample.start
              (Trace.after Sample.frozen 1 Sample.start)
              [ {| Server.blobName := Trace.name_at Sample.frozen 0 0;
                   Server.uploadUrl := "http://azurite:10000/devstoreaccount1/images/image-1763247782909-2n9zyybjrf4.jpg?sv=2025-11-05&spr=https,http&st=1763247782909&se=1763248082909&sr=b&sp=w&sig=c2ln";
                   Server.fileUrl := "http://azurite:10000/devstoreaccount1/images/image-1763247782909-2n9zyybjrf4.jpg" |} ]
              0%nat _ eq_refl eq_refl)
    as (_ & values & token & Hv & Hs & _ & _ & _ & _ & _ & _ & _ & Hexact).
  exists values, token. repeat split; try assumption.
  apply Hexact. reflexivity.
Defined.

(** C1 as stated fails when the clock advances between the two readings:
    one record is issued, and the window handed to the signer is one
    millisecond longer than five minutes. *)
Lemma C1_window_not_exact :
  match Server.upload_urls Sample.ticking Sample.storage Sample.credential
          (Server.QString "1") Sample.start with
  | Ok (urls, st') =>
      length urls = 1%nat /\
      map (fun v => (SDK.startsOn v, SDK.expiresOn v)) (Server.signed st')
        = [ (1763247782910, 1763248082911) ] /\
      map Server.uploadUrl urls =
        [ "http://azurite:10000/devstoreaccount1/images/image-1763247782909-2n9zyybjrf40.jpg?sv=2025-11-05&spr=https,http&st=1763247782910&se=1763248082911&sr=b&sp=w&sig=c2ln" ] /\
      1763248082911 <> 1763247782910 + 5 * 60 * 1000
  | Throw _ => False
  end.
Proof. vm_compute. repeat split; congruence. Qed.

(** ** C2, C4, C5: how many records a request yields *)

Lemma parseInt_no_numeric_prefix s :
  Text.numeric_prefix s = false -> JS.parseInt s = JS.NaN.
Proof.
  unfold Text.numeric_prefix, JS.parseInt.
  destruct (JS.strip_sign (JS.trim_start s)) as [sign s1]. simpl snd.
  destruct s1 as [|c r]; [reflexivity|]. intros Hc.
  assert (H0 : Ascii.eqb c "0" = false).
  { destruct (Ascii.eqb_spec c "0") as [->|_]; [discriminate Hc|reflexivity]. }
  assert (Hr : JS.strip_radix_prefix (String c r) = (10, String c r)).
  { destruct r; simpl; [reflexivity|]. now rewrite H0. }
  rewrite Hr. simpl. now rewrite (digit_value_not_digit c Hc).
Qed.

(** The length the array gets for a count written in decimal. *)
Lemma Array_from_length_small (z : Z) :
  z <> 0 -> z <= 2 ^ 32 - 1 ->
  JS.Array_from_length (JS.or_else (JS.Num z) (JS.Num 1)) = Ok (Z.to_nat (Z.max z 0)).
Proof.
  intros Hz Hle. unfold JS.or_else.
  destruct (Z.eqb_spec z 0) as [|_]; [contradiction|].
  unfold JS.Array_from_length, JS.ToLength.
  assert (H53 : 2 ^ 32 - 1 < 2 ^ 53 - 1) by reflexivity.
  rewrite Z.min_l by lia.
  destruct (Z.leb_spec (Z.max z 0) (2 ^ 32 - 1)); [reflexivity | lia].
Qed.

(** What [Array.from] makes of a count of one or more. *)
Lemma Array_from_length_inv (z : Z) (len : nat) :
  1 <= z ->
  JS.Array_from_length (JS.or_else (JS.Num z) (JS.Num 1)) = Ok len ->
  z <= 2 ^ 32 - 1 /\ len = Z.to_nat z.
Proof.
  intros Hz. unfold JS.or_else.
  destruct (Z.eqb_spec z 0) as [|_]; [lia|].
  unfold JS.Array_from_length, JS.ToLength.
  assert (H53 : 2 ^ 32 - 1 < 2 ^ 53 - 1) by reflexivity.
  destruct (Z.leb_spec (Z.min (Z.max z 0) (2 ^ 53 - 1)) (2 ^ 32 - 1));
    [|discriminate].
  intros [= <-]. split; [lia|]. f_equal. lia.
Qed.

Section CountFacts.

Variable rt : Server.Runtime.
Variable sdk : Server.Storage.
Variable credential : SDK.StorageSharedKeyCredential.

(** A request whose array has one element is answered by one run of the
    callback: with the record of that run, or with the 500 of whatever
    the container check or that run throws. *)
Lemma handler_one_run count st :
  JS.Array_from_length
    (JS.or_else (JS.parseInt (Server.ToString count)) (JS.Num 1)) = Ok 1%nat ->
  Server.handler rt sdk credential count st =
  match Server.createIfNotExists sdk "images" with
  | Ok _ =>
      match Trace.record_at rt sdk credential (Server.ticks st) (Server.draws st) with
      | Ok r => Server.Json [r]
      | Throw e => Server.Status500 ("<h1>Error</h1><p>" +:+ e +:+ "</p>")
      end
  | Throw e => Server.Status500 ("<h1>Error</h1><p>" +:+ e +:+ "</p>")
  end.
Proof.
  intros Hlen. unfold Server.handler. rewrite upload_urls_run, Hlen.
  destruct (Server.createIfNotExists sdk "images"); [|reflexivity].
  cbn [Server.map_times]. unfold Server.bind.
  rewrite make_upload_url_run.
  destruct (Trace.record_at rt sdk credential (Server.ticks st) (Server.draws st));
    reflexivity.
Qed.

(** A request whose array is empty is answered without any run of the
    callback. *)
Lemma handler_no_run count st :
  JS.Array_from_length
    (JS.or_else (JS.parseInt (Server.ToString count)) (JS.Num 1)) = Ok 0%nat ->
  Server.handler rt sdk credential count st =
  match Server.createIfNotExists sdk "images" with
  | Ok _ => Server.Json []
  | Throw e => Server.Status500 ("<h1>Error</h1><p>" +:+ e +:+ "</p>")
  end.
Proof.
  intros Hlen. unfold Server.handler. rewrite upload_urls_run, Hlen.
  destruct (Server.createIfNotExists sdk "images"); reflexivity.
Qed.

(** The record of a run whose values the signer accepts. *)
Lemma record_at_signed t d token :
  Server.generateBlobSASQueryParameters sdk (Trace.values_at rt t d) credential
    = Ok token ->
  Trace.record_at rt sdk credential t d =
  Ok {| Server.blobName := Trace.name_at rt t d;
        Server.uploadUrl :=
          Server.blobUrl sdk "images" (Trace.name_at rt t d) +:+ "?" +:+ token;
        Server.fileUrl := Server.blobUrl sdk "images" (Trace.name_at rt t d) |}.
Proof. intros H. unfold Trace.record_at. now rewrite H. Qed.

(** A JSON answer comes from a passed container check, an array that
    could be made and runs that all succeeded. *)
Lemma handler_json count st urls :
  Server.handler rt sdk credential count st = Server.Json urls ->
  exists len st',
    JS.Array_from_length
      (JS.or_else (JS.parseInt (Server.ToString count)) (JS.Num 1)) = Ok len /\
    Server.map_times len (Server.make_upload_url rt sdk credential) st
      = Ok (urls, st').
Proof.
  unfold Server.handler. rewrite upload_urls_run.
  destruct (Server.createIfNotExists sdk "images"); [|discriminate].
  destruct (JS.Array_from_length _) as [len|]; [|discriminate].
  destruct (Server.map_times len _ st) as [[l st']|] eqn:Hrun; [|discriminate].
  intros [= <-]. now exists len, st'.
Qed.

End CountFacts.

Lemma string_app_nil_r (s : string) : s +:+ "" = s.
Proof. induction s as [|c s IH]; simpl; [reflexivity | now rewrite IH]. Qed.

Lemma parseInt_decimal z : JS.parseInt (JS.Number_toString z) = JS.Num z.
Proof.
  rewrite <- (string_app_nil_r (JS.Number_toString z)).
  now apply parseInt_Number_toString.
Qed.

(** C2, as the code has it.  For a count [N >= 1] written in decimal,
    every JSON answer holds exactly [N] records, and there is such an
    answer only for [N <= 2^32 - 1]; the [k]-th record is named after the
    clock reading and the random draw of its own run of the callback,
    so the names are pairwise distinct whenever those (reading, suffix)
    pairs are. *)
Theorem C2_count_records_and_names
    (rt : Server.Runtime) (sdk : Server.Storage)
    (credential : SDK.StorageSharedKeyCredential)
    (st : Server.State) (N : Z) (urls : list Server.UploadUrl) :
  1 <= N ->
  Server.handler rt sdk credential (Server.QString (JS.Number_toString N)) st
    = Server.Json urls ->
  Z.of_nat (length urls) = N /\
  N <= 2 ^ 32 - 1 /\
  (forall k r, urls !! k = Some r ->
     Server.blobName r =
       Trace.name_at rt (Server.ticks st + 3 * k) (Server.draws st + k)) /\
  ((forall i j, (i < j)%nat -> Z.of_nat j < N ->
      (Server.clock rt (Server.ticks st + 3 * i),
       Trace.suffix_at rt (Server.draws st + i)) <>
      (Server.clock rt (Server.ticks st + 3 * j),
       Trace.suffix_at rt (Server.draws st + j))) ->
   NoDup (map Server.blobName urls)).
Proof.
  intros HN Hjson.
  apply handler_json in Hjson as (len & st' & Hlen & Hrun).
  cbn [Server.ToString] in Hlen. rewrite parseInt_decimal in Hlen.
  apply Array_from_length_inv in Hlen as [Hbound ->]; [|exact HN].
  apply map_times_run in Hrun as (_ & Hl & Hrec).
  assert (Hname : forall k r, urls !! k = Some r ->
            Server.blobName r =
              Trace.name_at rt (Server.ticks st + 3 * k) (Server.draws st + k)).
  { intros k r Hk. specialize (Hrec k r Hk). unfold Trace.record_at in Hrec.
    destruct (Server.generateBlobSASQueryParameters sdk _ credential);
      [|discriminate].
    now injection Hrec as <-. }
  split; [lia|]. split; [exact Hbound|]. split; [exact Hname|].
  intros Hdistinct. apply NoDup_alt. intros i j x Hi Hj.
  rewrite list_lookup_fmap in Hi, Hj.
  destruct (urls !! i) as [ri|] eqn:Hri; [|discriminate].
  destruct (urls !! j) as [rj|] eqn:Hrj; [|discriminate].
  simpl in Hi, Hj. injection Hi as Hi. injection Hj as Hj.
  pose proof (lookup_lt_Some _ _ _ Hri) as Hilt.
  pose proof (lookup_lt_Some _ _ _ Hrj) as Hjlt.
  rewrite (Hname _ _ Hri) in Hi. rewrite (Hname _ _ Hrj) in Hj.
  assert (Heq : Trace.name_at rt (Server.ticks st + 3 * i) (Server.draws st + i)
              = Trace.name_at rt (Server.ticks st + 3 * j) (Server.draws st + j))
    by congruence.
  apply name_at_inj in Heq as [Hc Hs].
  destruct (Nat.lt_trichotomy i j) as [Hlt|[->|Hlt]]; [|reflexivity|].
  - exfalso. apply (Hdistinct i j Hlt); [lia|]. now rewrite Hc, Hs.
  - exfalso. apply (Hdistinct j i Hlt); [lia|]. now rewrite Hc, Hs.
Qed.

Lemma C2_count_records_and_names_witness :
  exists urls,
    Server.handler Sample.ticking Sample.storage Sample.credential
      (Server.QString "3") Sample.start = Server.Json urls /\
    length urls = 3%nat /\ NoDup (map Server.blobName urls).
Proof.
  exists (match Server.handler Sample.ticking Sample.storage Sample.credential
                  (Server.QString "3") Sample.start with
          | Server.Json urls => urls
          | Server.Status500 _ => []
          end).
  destruct (C2_count_records_and_names Sample.ticking Sample.storage
              Sample.credential Sample.start 3
              (match Server.handler Sample.ticking Sample.storage
                       Sample.credential (Server.QString "3") Sample.start with
               | Server.Json urls => urls
               | Server.Status500 _ => []
               end))
    as (Hl & _ & _ & Hnodup).
  - lia.
  - vm_compute. reflexivity.
  - split; [vm_compute; reflexivity|]. split; [vm_compute; reflexivity|].
    apply Hnodup. intros i j Hij _ [= Hc _].
    simpl in Hc. lia.
Defined.

(** C2 as stated fails in two ways: with a clock and a random generator
    that repeat themselves two records of one response share their name;
    and a count of 2^32 is answered with status 500. *)
Lemma C2_names_can_collide_and_count_is_bounded :
  map Server.blobName
    (match Server.handler Sample.frozen Sample.storage Sample.credential
             (Server.QString "2") Sample.start with
     | Server.Json urls => urls
     | Server.Status500 _ => []
     end)
  = [ "image-1763247782909-2n9zyybjrf4.jpg";
      "image-1763247782909-2n9zyybjrf4.jpg" ] /\
  Server.handler Sample.frozen Sample.storage Sample.credential
    (Server.QString "4294967296") Sample.start
  = Server.Status500 "<h1>Error</h1><p>Invalid array length</p>".
Proof. split; vm_compute; reflexivity. Qed.

(** C4, as the code has it.  When [count] is absent, or is a string
    with no numeric prefix (after leading white space and an optional
    sign it does not start with a decimal digit), the request is
    answered by exactly one run of the callback: with the one record of
    that run, given that the container check passes and the signer
    accepts the values of that run, and otherwise with the 500 of what
    was thrown. *)
Theorem C4_default_one_record
    (rt : Server.Runtime) (sdk : Server.Storage)
    (credential : SDK.StorageSharedKeyCredential)
    (st : Server.State) (count : Server.QueryValue) :
  (count = Server.QUndefined \/
   exists s, count = Server.QString s /\ Text.numeric_prefix s = false) ->
  JS.or_else (JS.parseInt (Server.ToString count)) (JS.Num 1) = JS.Num 1 /\
  Server.handler rt sdk credential count st =
    match Server.createIfNotExists sdk "images" with
    | Ok _ =>
        match Trace.record_at rt sdk credential
                (Server.ticks st) (Server.draws st) with
        | Ok r => Server.Json [r]
        | Throw e => Server.Status500 ("<h1>Error</h1><p>" +:+ e +:+ "</p>")
        end
    | Throw e => Server.Status500 ("<h1>Error</h1><p>" +:+ e +:+ "</p>")
    end /\
  (Server.createIfNotExists sdk "images" = Ok tt ->
   forall token,
     Server.generateBlobSASQueryParameters sdk
       (Trace.values_at rt (Server.ticks st) (Server.draws st)) credential
     = Ok token ->
     Server.handler rt sdk credential count st =
     Server.Json
       [ {| Server.blobName :=
              Trace.name_at rt (Server.ticks st) (Server.draws st);
            Server.uploadUrl :=
              Server.blobUrl sdk "images"
                (Trace.name_at rt (Server.ticks st) (Server.draws st))
              +:+ "?" +:+ token;
            Server.fileUrl :=
              Server.blobUrl sdk "images"
                (Trace.name_at rt (Server.ticks st) (Server.draws st)) |} ]).
Proof.
  intros Hcount.
  assert (Hnan : JS.parseInt (Server.ToString count) = JS.NaN).
  { destruct Hcount as [->|(s & -> & Hs)]; [reflexivity|].
    now apply parseInt_no_numeric_prefix. }
  assert (Hlen : JS.Array_from_length
                   (JS.or_else (JS.parseInt (Server.ToString count)) (JS.Num 1))
                 = Ok 1%nat) by now rewrite Hnan.
  split; [now rewrite Hnan|].
  rewrite (handler_one_run rt sdk credential count st Hlen).
  split; [reflexivity|].
  intros Hreach token Htoken.
  now rewrite Hreach, (record_at_signed rt sdk credential _ _ token Htoken).
Qed.

Lemma C4_default_one_record_witness :
  (exists r, Server.handler Sample.frozen Sample.storage Sample.credential
               Server.QUndefined Sample.start = Server.Json [r]) /\
  (exists r, Server.handler Sample.frozen Sample.storage Sample.credential
               (Server.QString "abc") Sample.start = Server.Json [r]).
Proof.
  split.
  - destruct (C4_default_one_record Sample.frozen Sample.storage
                Sample.credential Sample.start Server.QUndefined)
      as (_ & _ & H).
    + left. reflexivity.
    + eexists. apply H; reflexivity.
  - destruct (C4_default_one_record Sample.frozen Sample.storage
                Sample.credential Sample.start (Server.QString "abc"))
      as (_ & _ & H).
    + right. exists "abc". split; reflexivity.
    + eexists. apply H; reflexivity.
Defined.

(** C4 as stated fails for a count that is not a number but starts like
    one: ["5abc"] yields five records. *)
Lemma C4_numeric_prefix_is_read :
  Text.is_numeric "5abc" = false /\
  match Server.handler Sample.frozen Sample.storage Sample.credential
          (Server.QString "5abc") Sample.start with
  | Server.Json urls => length urls = 5%nat
  | Server.Status500 _ => False
  end.
Proof. split; vm_compute; reflexivity. Qed.

(** C5.  [parseInt] reads [count=0] as [0], which is falsy and replaced
    by the default: the request is answered by exactly one run of the
    callback, like a request without [count], so with exactly one record
    when the container check passes and the signer accepts the values
    of that run.  A negative integer count is read as it is written and
    gives an empty array: once the container check has passed the
    answer is the success response with no record, without any call of
    the signer.  In neither case does the count lead to an error
    response. *)
Theorem C5_zero_and_negative_counts
    (rt : Server.Runtime) (sdk : Server.Storage)
    (credential : SDK.StorageSharedKeyCredential)
    (st : Server.State) (z : Z) :
  z < 0 ->
  JS.parseInt "0" = JS.Num 0 /\
  Server.handler rt sdk credential (Server.QString "0") st
    = Server.handler rt sdk credential Server.QUndefined st /\
  (Server.createIfNotExists sdk "images" = Ok tt ->
   forall token,
     Server.generateBlobSASQueryParameters sdk
       (Trace.values_at rt (Server.ticks st) (Server.draws st)) credential
     = Ok token ->
     exists r,
       Server.handler rt sdk credential (Server.QString "0") st
       = Server.Json [r]) /\
  JS.parseInt (JS.Number_toString z) = JS.Num z /\
  Server.handler rt sdk credential (Server.QString (JS.Number_toString z)) st =
    match Server.createIfNotExists sdk "images" with
    | Ok _ => Server.Json []
    | Throw e => Server.Status500 ("<h1>Error</h1><p>" +:+ e +:+ "</p>")
    end /\
  (Server.createIfNotExists sdk "images" = Ok tt ->
   Server.handler rt sdk credential (Server.QString (JS.Number_toString z)) st
   = Server.Json []).
Proof.
  intros Hz.
  assert (H0 : JS.Array_from_length
                 (JS.or_else (JS.parseInt (Server.ToString (Server.QString "0")))
                    (JS.Num 1)) = Ok 1%nat) by reflexivity.
  assert (Hu : JS.Array_from_length
                 (JS.or_else (JS.parseInt (Server.ToString Server.QUndefined))
                    (JS.Num 1)) = Ok 1%nat) by reflexivity.
  assert (Hneg : JS.Array_from_length
                   (JS.or_else (JS.parseInt (Server.ToString
                      (Server.QString (JS.Number_toString z)))) (JS.Num 1))
                 = Ok 0%nat).
  { cbn [Server.ToString]. rewrite parseInt_decimal.
    rewrite Array_from_length_small by lia. f_equal. lia. }
  split; [reflexivity|].
  split.
  { now rewrite (handler_one_run rt sdk credential _ st H0),
      (handler_one_run rt sdk credential _ st Hu). }
  split.
  { intros Hreach token Htoken.
    rewrite (handler_one_run rt sdk credential _ st H0), Hreach,
      (record_at_signed rt sdk credential _ _ token Htoken).
    now eexists. }
  split; [apply parseInt_decimal|].
  rewrite (handler_no_run rt sdk credential _ st Hneg).
  split; [reflexivity|]. now intros ->.
Qed.

Lemma C5_zero_and_negative_counts_witness :
  (exists r, Server.handler Sample.frozen Sample.storage Sample.credential
               (Server.QString "0") Sample.start = Server.Json [r]) /\
  Server.handler Sample.frozen Sample.storage Sample.credential
    (Server.QString "-3") Sample.start = Server.Json [].
Proof.
  destruct (C5_zero_and_negative_counts Sample.frozen Sample.storage
              Sample.credential Sample.start (-3))
    as (_ & _ & H0 & _ & _ & Hneg).
  - lia.
  - split.
    + apply (H0 eq_refl _ eq_refl).
    + apply Hneg. reflexivity.
Defined.

(** ** C3: values of the connection string that hold [=] *)

Lemma split_pieces_no_sep sep s : forall i x,
  JS.split sep s !! i = Some x -> Text.contains sep x = false.
Proof.
  induction s as [|c s IH]; intros i x H.
  - destruct i; [|discriminate]. now injection H as <-.
  - simpl in H. destruct (Ascii.eqb c sep) eqn:Hc.
    + destruct i; [now injection H as <-|]. now apply (IH i).
    + destruct (JS.split sep s) as [|piece pieces] eqn:Hs.
      * destruct i; [|discriminate]. injection H as <-. simpl. now rewrite Hc.
      * destruct i.
        -- injection H as <-. simpl. rewrite Hc. now apply (IH 0%nat).
        -- now apply (IH (S i)).
Qed.

Lemma split_key sep k v :
  Text.contains sep k = false ->
  JS.split sep (k +:+ String sep v) = k :: JS.split sep v.
Proof.
  induction k as [|c k IH]; simpl; intros H.
  - now rewrite Ascii.eqb_refl.
  - apply orb_false_iff in H as [Hc Hk]. now rewrite Hc, (IH Hk).
Qed.

Lemma split_head sep v :
  exists rest, JS.split sep v = Text.before_first sep v :: rest.
Proof.
  induction v as [|c v [rest IH]]; simpl.
  - now exists [].
  - destruct (Ascii.eqb c sep); [now eexists|]. rewrite IH. now eexists.
Qed.

Lemma before_first_differs sep v :
  Text.contains sep v = true -> Text.before_first sep v <> v.
Proof.
  induction v as [|c v IH]; simpl; [discriminate|].
  destruct (Ascii.eqb c sep); [discriminate|]. simpl.
  intros H [= Heq]. now apply IH.
Qed.

(** No stored value holds an [=]. *)
Lemma fold_values_no_equals parts : forall out : gmap string string,
  (forall k x, out !! k = Some x -> Text.contains "=" x = false) ->
  forall k x, foldl Server.parse_part out parts !! k = Some x -> Text.contains "=" x = false.
Proof.
  induction parts as [|p parts IH]; intros out Hout; [exact Hout|].
  simpl. apply IH. intros k x. unfold Server.parse_part.
  destruct (JS.split "=" p !! 0%nat) as [k0|] eqn:Hk0; [|apply Hout].
  destruct (JS.split "=" p !! 1%nat) as [v0|] eqn:Hv0; [|apply Hout].
  destruct (_ && _); [|apply Hout].
  destruct (decide (k0 = k)) as [->|Hne].
  - rewrite lookup_insert_eq. intros [= <-].
    now apply (split_pieces_no_sep "=" p 1%nat).
  - rewrite lookup_insert_ne by exact Hne. apply Hout.
Qed.

(** Parts with another key leave the entry of [key] alone. *)
Lemma fold_other_keys key parts : forall out : gmap string string,
  Forall (fun p => JS.split "=" p !! 0%nat <> Some key) parts ->
  foldl Server.parse_part out parts !! key = out !! key.
Proof.
  induction parts as [|p parts IH]; intros out Hparts; [reflexivity|].
  apply Forall_cons in Hparts as [Hp Hparts].
  simpl. rewrite (IH _ Hparts). unfold Server.parse_part.
  destruct (JS.split "=" p !! 0%nat) as [k0|] eqn:Hk0; [|reflexivity].
  destruct (JS.split "=" p !! 1%nat) as [v0|]; [|reflexivity].
  destruct (_ && _); [|reflexivity].
  apply lookup_insert_ne. congruence.
Qed.

Lemma parse_part_segment (out : gmap string string) key value :
  Text.contains "=" key = false -> key <> "" -> key <> "__proto__" ->
  Text.before_first "=" value <> "" ->
  Server.parse_part out (key +:+ "=" +:+ value) = <[key := Text.before_first "=" value]> out.
Proof.
  intros Hkey Hne Hproto Hkept. unfold Server.parse_part.
  change (key +:+ "=" +:+ value) with (key +:+ String "=" value).
  rewrite (split_key "=" key value Hkey).
  destruct (split_head "=" value) as [rest ->].
  change ((key :: Text.before_first "=" value :: rest) !! 0%nat) with (Some key).
  change ((key :: Text.before_first "=" value :: rest) !! 1%nat)
    with (Some (Text.before_first "=" value)).
  cbv beta iota zeta.
  destruct key as [|c key]; [contradiction|].
  destruct (Text.before_first "=" value) as [|c' kept]; [contradiction|].
  cbn [JS.truthy andb].
  destruct (String.eqb_spec (String c key) "__proto__"); [contradiction|].
  reflexivity.
Qed.

(** Whatever the connection string, no parsed value holds an [=]. *)
Lemma parsed_values_no_equals cs k x :
  Server.parseConnectionString cs !! k = Some x -> Text.contains "=" x = false.
Proof.
  unfold Server.parseConnectionString.
  apply fold_values_no_equals. intros k0 x0 H.
  rewrite lookup_empty in H. discriminate.
Qed.

(** C3.  A part [key=value] whose value holds an [=] is split into the
    key, the value up to its first [=], and further pieces that are
    dropped.  When no later part has the same key, the parsed entry is
    that truncated value (if it is not empty), and in no case the value
    as written; so the credential is built from an account key other
    than the one written whenever that one holds an [=]. *)
Theorem C3_value_truncated_at_first_equals
    (connectionString : string) (front back : list string)
    (key value : string) :
  JS.split ";" connectionString
    = (front ++ (key +:+ "=" +:+ value) :: back)%list ->
  Text.contains "=" key = false -> key <> "" -> key <> "__proto__" ->
  Text.contains "=" value = true ->
  Forall (fun p => JS.split "=" p !! 0%nat <> Some key) back ->
  JS.split "=" (key +:+ "=" +:+ value) !! 0%nat = Some key /\
  JS.split "=" (key +:+ "=" +:+ value) !! 1%nat
    = Some (Text.before_first "=" value) /\
  Text.before_first "=" value <> value /\
  (Text.before_first "=" value <> "" ->
   Server.parseConnectionString connectionString !! key
     = Some (Text.before_first "=" value)) /\
  Server.parseConnectionString connectionString !! key <> Some value /\
  (key = "AccountKey" ->
   SDK.accountKey (Server.sharedKeyCredential connectionString) <> Some value /\
   (Text.before_first "=" value <> "" ->
    SDK.accountKey (Server.sharedKeyCredential connectionString)
      = Some (Text.before_first "=" value))).
Proof.
  intros Hsplit Hkey Hne Hproto Hvalue Hback.
  assert (Hpieces : exists rest,
    JS.split "=" (key +:+ "=" +:+ value)
      = key :: Text.before_first "=" value :: rest).
  { change (key +:+ "=" +:+ value) with (key +:+ String "=" value).
    rewrite (split_key "=" key value Hkey).
    destruct (split_head "=" value) as [rest ->]. now exists rest. }
  destruct Hpieces as [rest Hpieces].
  assert (Hkept : Text.before_first "=" value <> "" ->
    Server.parseConnectionString connectionString !! key
      = Some (Text.before_first "=" value)).
  { intros Hnonempty.
    unfold Server.parseConnectionString. rewrite Hsplit, foldl_app. cbn [foldl].
    rewrite (fold_other_keys key back _ Hback).
    rewrite parse_part_segment by assumption. apply lookup_insert_eq. }
  assert (Hnot : Server.parseConnectionString connectionString !! key <> Some value).
  { intros H. apply parsed_values_no_equals in H. congruence. }
  split; [now rewrite Hpieces|]. split; [now rewrite Hpieces|].
  split; [now apply before_first_differs|].
  split; [exact Hkept|]. split; [exact Hnot|].
  intros ->. unfold Server.sharedKeyCredential. cbn [SDK.accountKey].
  split; [exact Hnot | exact Hkept].
Qed.

Lemma C3_value_truncated_at_first_equals_witness :
  SDK.accountKey (Server.sharedKeyCredential Sample.azurite)
    = Some "Eby8vdM02xNOcqFlqUwJPLlmEtlCDXJ1OUzFT50uSRZ6IFsuFq2UVErCz4I6tq/K1SZFPTOtr/KBHBeksoGMGw" /\
  SDK.accountKey (Server.sharedKeyCredential Sample.azurite)
    <> Some Sample.azurite_key.
Proof.
  destruct (C3_value_truncated_at_first_equals Sample.azurite
              [ "DefaultEndpointsProtocol=http"; "AccountName=devstoreaccount1" ]
              [ "BlobEndpoint=http://127.0.0.1:10000/devstoreaccount1"; "" ]
              "AccountKey" Sample.azurite_key)
    as (_ & _ & _ & _ & _ & Hcred).
  - reflexivity.
  - reflexivity.
  - discriminate.
  - discriminate.
  - reflexivity.
  - repeat constructor; discriminate.
  - destruct (Hcred eq_refl) as [Hne Hkept]. split; [|exact Hne].
    apply Hkept. discriminate.
Defined.

(** ** C6, C7, C8: the sweep *)

Section SweepFacts.

Variable storage : Cleanup.Storage.

Lemma succeeded_failed n blobs :
(Outcome.succeeded storage n blobs + Outcome.failed storage n blobs
 = length blobs)%nat.
Proof.
revert n. induction blobs as [|b blobs IH]; intros n; simpl; [reflexivity|].
specialize (IH (S n)). destruct (Cleanup.delete storage n b); simpl; lia.
Qed.

(** The deletion loop makes one delete call per blob, in order, whatever
  the outcomes, and counts each outcome once. *)
Lemma delete_each_run blobs : forall successCount failCount st,
exists lines,
  Cleanup.delete_each storage blobs successCount failCount st =
  ((successCount + Outcome.succeeded storage (length (Cleanup.attempted st)) blobs)%nat,
   (failCount + Outcome.failed storage (length (Cleanup.attempted st)) blobs)%nat,
   {| Cleanup.log := Cleanup.log st ++ lines;
      Cleanup.attempted := Cleanup.attempted st ++ blobs |}).
Proof.
induction blobs as [|b blobs IH]; intros s f st.
- exists []. simpl. rewrite !app_nil_r, !Nat.add_0_r. now destruct st.
- cbn [Cleanup.delete_each Outcome.succeeded Outcome.failed].
  destruct (Cleanup.delete storage (length (Cleanup.attempted st)) b) as [u|message].
  + destruct (IH (S s) f (Cleanup.say (Cleanup.Successfully_deleted b)
                            (Cleanup.attempt b st))) as [lines ->].
    exists (Cleanup.Successfully_deleted b :: lines).
    cbn [Cleanup.say Cleanup.attempt Cleanup.log Cleanup.attempted].
    rewrite length_app. cbn [length].
    replace (length (Cleanup.attempted st) + 1)%nat
      with (S (length (Cleanup.attempted st))) by lia.
    rewrite <- !app_assoc. cbn [app].
    now rewrite Nat.add_succ_comm.
  + destruct (IH s (S f) (Cleanup.say (Cleanup.Failed_to_delete b message)
                            (Cleanup.attempt b st))) as [lines ->].
    exists (Cleanup.Failed_to_delete b message :: lines).
    cbn [Cleanup.say Cleanup.attempt Cleanup.log Cleanup.attempted].
    rewrite length_app. cbn [length].
    replace (length (Cleanup.attempted st) + 1)%nat
      with (S (length (Cleanup.attempted st))) by lia.
    rewrite <- !app_assoc. cbn [app].
    now rewrite Nat.add_succ_comm.
Qed.

Lemma found_lines_attempted (blobs : list Cleanup.BlobItem) : forall st,
Cleanup.attempted
  (fold_left (fun st blob =>
                Cleanup.say (Cleanup.Found (Cleanup.name blob)
                               (Cleanup.contentLength blob)) st) blobs st)
= Cleanup.attempted st.
Proof.
induction blobs as [|b blobs IH]; intros st; simpl; [reflexivity|].
now rewrite IH.
Qed.

End SweepFacts.

Lemma say_attempted m st :
  Cleanup.attempted (Cleanup.say m st) = Cleanup.attempted st.
Proof. reflexivity. Qed.

Lemma say_log m st :
  Cleanup.log (Cleanup.say m st) = (Cleanup.log st ++ [m])%list.
Proof. reflexivity. Qed.

Lemma say_if (b : bool) (m1 m2 : Cleanup.Message) (st : Cleanup.State) :
  (if b then Cleanup.say m1 st else Cleanup.say m2 st)
  = Cleanup.say (if b then m1 else m2) st.
Proof. now destruct b. Qed.


(** C6.  Over an existing, non-empty container whose listing completes,
    the sweep makes exactly one delete call per collected name, in the
    order collected, whatever the outcomes of the calls; a call that
    throws is counted as failed and the loop goes on.  The summary
    reports as found the number of names collected, which is the number
    of calls made, and the succeeded and failed counts add up to it. *)
Theorem C6_sweep_accounting
    (storage : Cleanup.Storage) (blobs : list Cleanup.BlobItem) :
  Cleanup.container_exists storage = Ok true ->
  Cleanup.listBlobsFlat storage = (blobs, None) ->
  blobs <> [] ->
  fst (Cleanup.main storage) = 0 /\
  Cleanup.attempted (snd (Cleanup.main storage)) = map Cleanup.name blobs /\
  length (Cleanup.attempted (snd (Cleanup.main storage))) = length blobs /\
  (Outcome.succeeded storage 0 (map Cleanup.name blobs)
   + Outcome.failed storage 0 (map Cleanup.name blobs) = length blobs)%nat /\
  exists (before : list Cleanup.Message) (verdict : Cleanup.Message),
    Cleanup.log (snd (Cleanup.main storage)) =
    (before ++
     [ Cleanup.Separator; Cleanup.Cleanup_summary; Cleanup.Separator;
       Cleanup.Total_blobs_found (length blobs);
       Cleanup.Total_successfully_deleted
         (Outcome.succeeded storage 0 (map Cleanup.name blobs));
       Cleanup.Total_failed_to_delete
         (Outcome.failed storage 0 (map Cleanup.name blobs));
       Cleanup.Separator; verdict; Cleanup.Cleanup_completed ])%list.
Proof.
  intros Hexists Hlist Hne.
  pose proof (succeeded_failed storage 0 (map Cleanup.name blobs)) as Hsum.
  rewrite length_map in Hsum.
  unfold Cleanup.main, Cleanup.cleanupContainer.
  rewrite Hexists.
  rewrite Hlist.
  assert (Hlen : Nat.eqb (length (map Cleanup.name blobs)) 0 = false).
  { destruct blobs; [contradiction|reflexivity]. }
  rewrite Hlen.
  match goal with
  | |- context [Cleanup.delete_each storage ?bs ?s ?f ?st] =>
      destruct (delete_each_run storage bs s f st) as [lines Hrun];
      assert (Hatt : Cleanup.attempted st = []);
      [ cbn [Cleanup.say Cleanup.attempted];
        now rewrite found_lines_attempted
      | rewrite Hatt in Hrun; rewrite Hrun ]
  end.
  cbn [length app Nat.add]. rewrite length_map.
  set (s := Outcome.succeeded storage 0 (map Cleanup.name blobs)) in *.
  set (f := Outcome.failed storage 0 (map Cleanup.name blobs)) in *.
  rewrite (say_if (Nat.ltb 0 s)).
  rewrite say_if.
  unfold fst, snd.
  rewrite !say_attempted.
  rewrite !say_log.
  cbn [Cleanup.log Cleanup.attempted].
  repeat split; try assumption.
  - now rewrite length_map.
  - rewrite <- !app_assoc. cbn [app].
    match goal with
    | |- exists _ _, (?a ++ ?x :: ?l ++ _)%list = _ =>
        exists (a ++ x :: l)%list
    end.
    eexists. rewrite <- app_assoc. reflexivity.
Qed.

Lemma C6_sweep_accounting_witness :
  fst (Cleanup.main Sample.three_blobs) = 0 /\
  Cleanup.attempted (snd (Cleanup.main Sample.three_blobs))
    = [ "image-1.jpg"; "image-2.jpg"; "image-3.jpg" ] /\
  (Outcome.succeeded Sample.three_blobs 0
     [ "image-1.jpg"; "image-2.jpg"; "image-3.jpg" ] = 2)%nat /\
  (Outcome.failed Sample.three_blobs 0
     [ "image-1.jpg"; "image-2.jpg"; "image-3.jpg" ] = 1)%nat.
Proof.
  destruct (C6_sweep_accounting Sample.three_blobs
              (fst (Cleanup.listBlobsFlat Sample.three_blobs)))
    as (Hexit & Hattempted & _).
  - reflexivity.
  - reflexivity.
  - discriminate.
  - split; [exact Hexit|]. split; [exact Hattempted|]. split; reflexivity.
Defined.

(** C7, as the code has it.  The exit status is 1 exactly when the
    existence check throws or the listing throws, and 0 otherwise; the
    outcomes of the delete calls play no part in it. *)
Theorem C7_exit_status (storage : Cleanup.Storage) :
  (fst (Cleanup.main storage) = 0 \/ fst (Cleanup.main storage) = 1) /\
  (fst (Cleanup.main storage) <> 0 <->
   (exists message, Cleanup.container_exists storage = Throw message) \/
   (Cleanup.container_exists storage = Ok true /\
    exists message, snd (Cleanup.listBlobsFlat storage) = Some message)) /\
  (forall delete',
     fst (Cleanup.main
            {| Cleanup.container_exists := Cleanup.container_exists storage;
               Cleanup.listBlobsFlat := Cleanup.listBlobsFlat storage;
               Cleanup.delete := delete' |})
     = fst (Cleanup.main storage)).
Proof.
  assert (Hmain : forall stg,
    fst (Cleanup.main stg) =
    match Cleanup.container_exists stg with
    | Throw _ => 1
    | Ok false => 0
    | Ok true =>
        match snd (Cleanup.listBlobsFlat stg) with
        | Some _ => 1
        | None => 0
        end
    end).
  { intros stg. unfold Cleanup.main, Cleanup.cleanupContainer.
    destruct (Cleanup.container_exists stg) as [[|]|message]; try reflexivity.
    destruct (Cleanup.listBlobsFlat stg) as [blobs [message|]]; [reflexivity|].
    cbn [snd].
    destruct (Nat.eqb (length (map Cleanup.name blobs)) 0); [reflexivity|].
    match goal with
    | |- context [Cleanup.delete_each stg ?bs ?s ?f ?st] =>
        destruct (Cleanup.delete_each stg bs s f st) as [[s' f'] st']
    end.
    reflexivity. }
  split; [|split].
  - rewrite Hmain.
    destruct (Cleanup.container_exists storage) as [[|]|]; auto.
    destruct (snd (Cleanup.listBlobsFlat storage)); auto.
  - rewrite Hmain. split.
    + destruct (Cleanup.container_exists storage) as [[|]|message];
        [| congruence | eauto].
      destruct (snd (Cleanup.listBlobsFlat storage)) as [message|];
        [eauto | congruence].
    + intros [[message ->]|[-> [message ->]]]; discriminate.
  - intros delete'. now rewrite !Hmain.
Qed.

(** C7 as stated fails when the existence check itself is rejected: the
    sweep exits with status 1 although no listing was started, let alone
    one that threw. *)
Lemma C7_existence_check_is_fatal_too :
  fst (Cleanup.main Sample.unreachable) = 1 /\
  snd (Cleanup.listBlobsFlat Sample.unreachable) = None /\
  Cleanup.log (snd (Cleanup.main Sample.unreachable)) =
    [ Cleanup.Starting_cleanup; Cleanup.Cleaning_up_container "images";
      Cleanup.Cleanup_failed "connect ECONNREFUSED 127.0.0.1:10000";
      Cleanup.Error_dump "connect ECONNREFUSED 127.0.0.1:10000" ].
Proof. repeat split. Qed.

(** C8.  When the container does not exist, or exists and holds no
    blob, the sweep makes no delete call, says there is nothing to do
    and ends with status 0. *)
Theorem C8_nothing_to_do (storage : Cleanup.Storage) :
  Cleanup.container_exists storage = Ok false \/
  (Cleanup.container_exists storage = Ok true /\
   Cleanup.listBlobsFlat storage = ([], None)) ->
  fst (Cleanup.main storage) = 0 /\
  Cleanup.attempted (snd (Cleanup.main storage)) = [] /\
  (Cleanup.log (snd (Cleanup.main storage)) =
     [ Cleanup.Starting_cleanup; Cleanup.Cleaning_up_container "images";
       Cleanup.Container_does_not_exist "images"; Cleanup.Cleanup_completed ] \/
   Cleanup.log (snd (Cleanup.main storage)) =
     [ Cleanup.Starting_cleanup; Cleanup.Cleaning_up_container "images";
       Cleanup.Container_exists "images"; Cleanup.Container_already_empty;
       Cleanup.Cleanup_completed ]).
Proof.
  unfold Cleanup.main, Cleanup.cleanupContainer.
  intros [->|[-> ->]]; cbn; auto.
Qed.

Lemma C8_nothing_to_do_witness :
  (fst (Cleanup.main Sample.no_container) = 0 /\
   Cleanup.attempted (snd (Cleanup.main Sample.no_container)) = []) /\
  (fst (Cleanup.main Sample.empty_container) = 0 /\
   Cleanup.attempted (snd (Cleanup.main Sample.empty_container)) = []).
Proof.
  split.
  - destruct (C8_nothing_to_do Sample.no_container) as (H1 & H2 & _);
      [left; reflexivity | split; assumption].
  - destruct (C8_nothing_to_do Sample.empty_container) as (H1 & H2 & _);
      [right; split; reflexivity | split; assumption].
Defined.

(** ** C9, C10: the upload agent *)

Lemma upload_all_run fetch urls : forall st,
  Client.upload_all fetch urls st =
  {| Client.log :=
       Client.log st ++ Report.reports fetch (length (Client.requests st)) urls;
     Client.requests :=
       Client.requests st ++
       map (fun u => Client.clientUploadUrl (Server.uploadUrl u)) urls |}.
Proof.
  induction urls as [|u urls IH]; intros st.
  - simpl. rewrite !app_nil_r. now destruct st.
  - cbn [Client.upload_all Report.reports map].
    rewrite IH. clear IH.
    cbn [Client.say Client.sent Client.log Client.requests].
    set (url := Client.clientUploadUrl (Server.uploadUrl u)).
    set (n := length (Client.requests st)).
    assert (Hlog : forall st1 : Client.State,
      Client.requests st1 = (Client.requests st ++ [url])%list ->
      Client.log st1 =
        (Client.log st ++ Report.report u (fetch n url))%list ->
      {| Client.log :=
           Client.log st1 ++ Report.reports fetch (length (Client.requests st1)) urls;
         Client.requests :=
           Client.requests st1 ++
           map (fun u => Client.clientUploadUrl (Server.uploadUrl u)) urls |} =
      {| Client.log :=
           Client.log st ++ Report.report u (fetch n url) ++ Report.reports fetch (S n) urls;
         Client.requests :=
           Client.requests st ++ url ::
           map (fun u => Client.clientUploadUrl (Server.uploadUrl u)) urls |}).
    { intros st1 -> ->. rewrite length_app. cbn [length].
      rewrite Nat.add_1_r, <- !app_assoc. reflexivity. }
    apply Hlog.
    + destruct (fetch n url) as [status statusText text|message];
        [destruct (Client.ok status); [|destruct text]|]; reflexivity.
    + unfold Report.report. fold (Client.ok).
      destruct (fetch n url) as [status statusText text|message].
      * unfold Client.ok.
        destruct ((200 <=? status) && (status <=? 299));
          [|destruct text];
          cbn [Client.say Client.sent Client.log]; rewrite <- ?app_assoc;
          reflexivity.
      * cbn [Client.say Client.sent Client.log]. rewrite <- ?app_assoc.
        reflexivity.
Qed.

Lemma reports_lookup fetch urls : forall n k u,
  urls !! k = Some u ->
  exists before after,
    Report.reports fetch n urls =
    (before ++
     Report.report u
       (fetch (n + k)%nat (Client.clientUploadUrl (Server.uploadUrl u)))
     ++ after)%list.
Proof.
  induction urls as [|u0 urls IH]; intros n k u Hk; [discriminate|].
  destruct k as [|k].
  - injection Hk as <-. exists [], (Report.reports fetch (S n) urls).
    cbn [Report.reports app]. now rewrite Nat.add_0_r.
  - destruct (IH (S n) k u Hk) as (before & after & Heq).
    exists (Report.report u0
              (fetch n (Client.clientUploadUrl (Server.uploadUrl u0))) ++ before)%list,
           after.
    cbn [Report.reports]. rewrite Heq, <- app_assoc.
    now replace (S n + k)%nat with (n + S k)%nat by lia.
Qed.

(** C9.  The agent sends exactly one PUT per record, in the order of
    the records, to the record's converted URL, whatever the outcomes
    of the PUTs (there is no retry and no early exit).  What it prints
    is, between the opening and the closing lines, the reports of the
    records in order, and the report of the [k]-th record is the one
    that the outcome of the [k]-th PUT alone calls for: success for a
    2xx status, failure with status and body text for any other status,
    the caught error for a rejected request. *)
Theorem C9_one_put_per_record_in_order
    (fetch : nat -> string -> Client.FetchResult)
    (urls : list Server.UploadUrl) (k : nat) (u : Server.UploadUrl) :
  urls !! k = Some u ->
  Client.requests (Client.upload_process fetch urls)
    = map (fun u => Client.clientUploadUrl (Server.uploadUrl u)) urls /\
  length (Client.requests (Client.upload_process fetch urls)) = length urls /\
  Client.requests (Client.upload_process fetch urls) !! k
    = Some (Client.clientUploadUrl (Server.uploadUrl u)) /\
  (forall fetch',
     Client.requests (Client.upload_process fetch' urls)
     = Client.requests (Client.upload_process fetch urls)) /\
  Client.log (Client.upload_process fetch urls) =
    (Client.Received_upload_urls urls :: Client.Created_fake_image ::
     Client.Starting_uploads ::
     Report.reports fetch 0 urls ++ [Client.Upload_process_completed])%list /\
  exists before after,
    Client.log (Client.upload_process fetch urls) =
    (before ++
     Report.report u (fetch k (Client.clientUploadUrl (Server.uploadUrl u)))
     ++ after)%list.
Proof.
  intros Hk.
  assert (Hreq : forall f,
    Client.requests (Client.upload_process f urls)
      = map (fun u => Client.clientUploadUrl (Server.uploadUrl u)) urls).
  { intros f. unfold Client.upload_process. now rewrite upload_all_run. }
  assert (Hlog :
    Client.log (Client.upload_process fetch urls) =
      (Client.Received_upload_urls urls :: Client.Created_fake_image ::
       Client.Starting_uploads ::
       Report.reports fetch 0 urls ++ [Client.Upload_process_completed])%list).
  { unfold Client.upload_process. now rewrite upload_all_run. }
  split; [apply Hreq|]. split; [now rewrite Hreq, length_map|].
  split; [now rewrite Hreq, list_lookup_fmap, Hk|].
  split; [intros f; now rewrite !Hreq|]. split; [exact Hlog|].
  destruct (reports_lookup fetch urls 0 k u Hk) as (before & after & Heq).
  exists (Client.Received_upload_urls urls :: Client.Created_fake_image ::
          Client.Starting_uploads :: before),
         (after ++ [Client.Upload_process_completed])%list.
  rewrite Hlog, Heq. cbn [app]. now rewrite <- !app_assoc.
Qed.

Lemma C9_one_put_per_record_in_order_witness :
  Client.requests (Client.upload_process Sample.flaky Sample.three_records) =
    [ "http://localhost:10000/devstoreaccount1/images/image-1.jpg?sv=2025-11-05&sp=w&sig=c2ln";
      "http://localhost:10000/devstoreaccount1/images/image-2.jpg?sv=2025-11-05&sp=w&sig=c2ln";
      "http://localhost:10000/devstoreaccount1/images/image-3.jpg?sv=2025-11-05&sp=w&sig=c2ln" ] /\
  Client.log (Client.upload_process Sample.flaky Sample.three_records) =
    [ Client.Received_upload_urls Sample.three_records;
      Client.Created_fake_image; Client.Starting_uploads;
      Client.Uploading_to "image-1.jpg";
      Client.Success_uploaded_to "image-1.jpg";
      Client.File_URL "http://azurite:10000/devstoreaccount1/images/image-1.jpg";
      Client.Uploading_to "image-2.jpg";
      Client.Failed_to_upload "image-2.jpg";
      Client.Status_line 403 "Forbidden";
      Client.Error_text "AuthenticationFailed";
      Client.Uploading_to "image-3.jpg";
      Client.Error_uploading "image-3.jpg" "fetch failed";
      Client.Upload_process_completed ].
Proof.
  destruct (C9_one_put_per_record_in_order Sample.flaky Sample.three_records 1
              {| Server.blobName := "image-2.jpg";
                 Server.uploadUrl := "http://azurite:10000/devstoreaccount1/images/image-2.jpg?sv=2025-11-05&sp=w&sig=c2ln";
                 Server.fileUrl := "http://azurite:10000/devstoreaccount1/images/image-2.jpg" |}
              eq_refl)
    as (Hreq & _ & _ & _ & Hlog & _).
  split; [exact Hreq | exact Hlog].
Defined.

Lemma replace_absent pattern replacement s :
  Text.occurs pattern s = false -> JS.replace pattern replacement s = s.
Proof.
  induction s as [|c s IH]; simpl; intros H;
    apply orb_false_iff in H as [Hp Hs]; rewrite Hp; [reflexivity|].
  now rewrite (IH Hs).
Qed.

(** No occurrence of the internal host starts inside a scheme that holds
    no colon, or inside the [://] that follows it. *)
Lemma no_match_before_host scheme tail :
  Text.contains ":" scheme = false ->
  String.prefix "azurite:10000" (scheme +:+ String ":" (String "/" tail)) = false.
Proof.
  intros H.
  do 8 (destruct scheme as [|? scheme];
        [ cbn [String.append String.prefix];
          repeat (destruct (ascii_dec _ _) as [?|?]; try discriminate; try reflexivity)
        | cbn [String.append String.prefix]; cbn [Text.contains] in H;
          apply orb_false_iff in H as [Hc H];
          destruct (ascii_dec _ _) as [<-|?]; [|reflexivity];
          try discriminate Hc; clear Hc ]).
Qed.

Lemma replace_host scheme tail :
  Text.contains ":" scheme = false ->
  JS.replace "azurite:10000" "localhost:10000"
    (scheme +:+ "://" +:+ "azurite:10000" +:+ tail)
  = scheme +:+ "://" +:+ "localhost:10000" +:+ tail.
Proof.
  induction scheme as [|c scheme IH]; intros H.
  - destruct tail; vm_compute; reflexivity.
  - cbn [Text.contains] in H. apply orb_false_iff in H as [Hc H].
    change (String c scheme +:+ "://" +:+ "azurite:10000" +:+ tail)
      with (String c (scheme +:+ "://" +:+ "azurite:10000" +:+ tail)).
    cbn [JS.replace].
    change (String c (scheme +:+ "://" +:+ "azurite:10000" +:+ tail))
      with (String c scheme +:+ String ":" (String "/" ("/" +:+ "azurite:10000" +:+ tail))).
    rewrite no_match_before_host
      by (cbn [Text.contains]; apply orb_false_iff; split; assumption).
    change (String c scheme +:+ String ":" (String "/" ("/" +:+ "azurite:10000" +:+ tail)))
      with (String c (scheme +:+ "://" +:+ "azurite:10000" +:+ tail)).
    cbv iota. rewrite (IH H). reflexivity.
Qed.

Lemma prefix_nil s : String.prefix "" s = true.
Proof. now destruct s. Qed.

(** A pattern without the character [ch] matches at the start of
    [s ++ ch :: x] exactly when it matches at the start of [s]. *)
Lemma prefix_before_char ch pattern : forall s x,
  Text.contains ch pattern = false ->
  String.prefix pattern (s +:+ String ch x) = String.prefix pattern s.
Proof.
  induction pattern as [|a pattern IH]; intros s x H.
  - now rewrite !prefix_nil.
  - cbn [Text.contains] in H. apply orb_false_iff in H as [Ha H].
    destruct s as [|b s]; cbn [String.append String.prefix].
    + destruct (ascii_dec a ch) as [->|_]; [|reflexivity].
      now rewrite Ascii.eqb_refl in Ha.
    + destruct (ascii_dec a b); [now apply IH | reflexivity].
Qed.

Lemma drop_matched pattern : forall s x,
  String.prefix pattern s = true ->
  JS.drop (String.length pattern) (s +:+ x)
  = JS.drop (String.length pattern) s +:+ x.
Proof.
  induction pattern as [|a pattern IH]; intros s x H.
  - cbn [String.length]. now destruct s.
  - destruct s as [|b s]; [discriminate H|].
    cbn [String.prefix] in H. destruct (ascii_dec a b); [|discriminate H].
    cbn [String.length String.append JS.drop]. now apply IH.
Qed.

(** The conversion acts on the part before the [?] alone when the part
    after it does not hold the internal authority. *)
Lemma replace_before_query base token :
  Text.occurs "azurite:10000" token = false ->
  JS.replace "azurite:10000" "localhost:10000" (base +:+ String "?" token)
  = JS.replace "azurite:10000" "localhost:10000" base +:+ String "?" token.
Proof.
  intros Htoken.
  assert (Hp : forall s,
    String.prefix "azurite:10000" (s +:+ String "?" token)
    = String.prefix "azurite:10000" s)
    by (intros s; now apply prefix_before_char).
  induction base as [|c base IH].
  - change ("" +:+ String "?" token) with (String "?" token).
    cbn [JS.replace String.prefix]. 
    destruct (ascii_dec "a" "?") as [E|_]; [discriminate E|].
    now rewrite (replace_absent _ _ _ Htoken).
  - change (String c base +:+ String "?" token)
      with (String c (base +:+ String "?" token)).
    cbn [JS.replace].
    change (String c (base +:+ String "?" token))
      with (String c base +:+ String "?" token).
    rewrite Hp.
    destruct (String.prefix "azurite:10000" (String c base)) eqn:Hpre.
    + rewrite (drop_matched _ _ _ Hpre).
      generalize (JS.drop (String.length "azurite:10000") (String c base)).
      intros rest. reflexivity.
    + rewrite IH. reflexivity.
Qed.

(** C10.  An upload URL whose authority is the internal [azurite:10000]
    is converted into the same URL with the authority [localhost:10000]:
    scheme, path and the token after the [?] are those of the original,
    character for character.  More generally the conversion never
    reaches into a token that does not itself hold the internal
    authority, and a URL in which the internal authority does not occur
    is used as it is. *)
Theorem C10_hostname_rewrite (scheme path token : string) :
  Text.contains ":" scheme = false ->
  Client.clientUploadUrl
    (scheme +:+ "://" +:+ "azurite:10000" +:+ path +:+ "?" +:+ token)
  = scheme +:+ "://" +:+ "localhost:10000" +:+ path +:+ "?" +:+ token /\
  (forall base,
     Text.occurs "azurite:10000" token = false ->
     Client.clientUploadUrl (base +:+ "?" +:+ token)
     = Client.clientUploadUrl base +:+ "?" +:+ token) /\
  (forall url, Text.occurs "azurite:10000" url = false ->
     Client.clientUploadUrl url = url).
Proof.
  intros Hscheme. split; [|split].
  - unfold Client.clientUploadUrl. now apply replace_host.
  - intros base Htoken. unfold Client.clientUploadUrl.
    now apply replace_before_query.
  - intros url Hurl. unfold Client.clientUploadUrl. now apply replace_absent.
Qed.

Lemma C10_hostname_rewrite_witness :
  Client.clientUploadUrl
    "http://azurite:10000/devstoreaccount1/images/image-1.jpg?sv=2025-11-05&st=2025-11-15T23%3A03%3A02Z&se=2025-11-15T23%3A08%3A02Z&sr=b&sp=w&sig=nWHF%2FJvaJ2"
  = "http://localhost:10000/devstoreaccount1/images/image-1.jpg?sv=2025-11-05&st=2025-11-15T23%3A03%3A02Z&se=2025-11-15T23%3A08%3A02Z&sr=b&sp=w&sig=nWHF%2FJvaJ2".
Proof.
  destruct (C10_hostname_rewrite "http" "/devstoreaccount1/images/image-1.jpg"
              "sv=2025-11-05&st=2025-11-15T23%3A03%3A02Z&se=2025-11-15T23%3A08%3A02Z&sr=b&sp=w&sig=nWHF%2FJvaJ2"
              eq_refl) as [H _].
  exact H.
Defined.

(** * Further properties of the three programs *)

(** ** The connection-string parser *)

Lemma split_no_sep sep s :
  Text.contains sep s = false -> JS.split sep s = [s].
Proof.
  induction s as [|c s IH]; simpl; [reflexivity|]. intros H.
  apply orb_false_iff in H as [Hc Hs]. now rewrite Hc, (IH Hs).
Qed.

Lemma split_nonempty sep s : JS.split sep s <> [].
Proof.
  destruct s as [|c s]; simpl; [discriminate|].
  destruct (Ascii.eqb c sep); [discriminate|].
  destruct (JS.split sep s); discriminate.
Qed.

(** Splitting undoes joining, as long as no piece holds the separator. *)
Lemma split_join sep pieces :
  pieces <> [] ->
  Forall (fun p => Text.contains sep p = false) pieces ->
  JS.split sep (Config.join (String sep "") pieces) = pieces.
Proof.
  induction pieces as [|p rest IH]; [congruence|]. intros _ Hall.
  apply Forall_cons in Hall as [Hp Hrest].
  destruct rest as [|q rest].
  - simpl. now apply split_no_sep.
  - change (Config.join (String sep "") (p :: q :: rest))
      with (p +:+ String sep (Config.join (String sep "") (q :: rest))).
    rewrite (split_key sep p _ Hp). f_equal. now apply IH.
Qed.

(** A part appended after a [;] is one more piece. *)
Lemma split_append sep s p :
  Text.contains sep p = false ->
  JS.split sep (s +:+ String sep p) = (JS.split sep s ++ [p])%list.
Proof.
  intros Hp. induction s as [|c s IH].
  - simpl. rewrite Ascii.eqb_refl. now rewrite (split_no_sep sep p Hp).
  - change (String c s +:+ String sep p) with (String c (s +:+ String sep p)).
    cbn [JS.split]. rewrite IH.
    destruct (Ascii.eqb c sep); [reflexivity|].
    pose proof (split_nonempty sep s) as Hne.
    destruct (JS.split sep s) as [|piece pieces]; [congruence|reflexivity].
Qed.

Lemma before_first_whole sep v :
  Text.contains sep v = false -> Text.before_first sep v = v.
Proof.
  induction v as [|c v IH]; simpl; [reflexivity|]. intros H.
  apply orb_false_iff in H as [Hc Hv]. now rewrite Hc, (IH Hv).
Qed.

Lemma plain_spec s :
  Config.plain s = true ->
  s <> "" /\ Text.contains "=" s = false /\ Text.contains ";" s = false.
Proof.
  unfold Config.plain. intros H.
  apply andb_true_iff in H as [H H3]. apply andb_true_iff in H as [H1 H2].
  apply negb_true_iff in H1, H2, H3. repeat split; try assumption.
  intros ->. discriminate H1.
Qed.

Lemma parse_part_well_formed (out : gmap string string) kv :
  Config.well_formed kv = true ->
  Server.parse_part out (Config.render kv) = <[fst kv := snd kv]> out.
Proof.
  unfold Config.well_formed. intros H.
  apply andb_true_iff in H as [H Hproto]. apply andb_true_iff in H as [Hk Hv].
  apply plain_spec in Hk as (Hk1 & Hk2 & _).
  apply plain_spec in Hv as (Hv1 & Hv2 & _).
  apply negb_true_iff in Hproto.
  unfold Config.render.
  rewrite parse_part_segment; try assumption.
  - now rewrite before_first_whole.
  - intros E. rewrite E in Hproto. discriminate Hproto.
  - now rewrite before_first_whole.
Qed.

Lemma foldl_parse_rendered pairs : forall out : gmap string string,
  Forall (fun kv => Config.well_formed kv = true) pairs ->
  foldl Server.parse_part out (map Config.render pairs)
  = foldr (fun kv m => <[fst kv := snd kv]> m) out (reverse pairs).
Proof.
  induction pairs as [|kv pairs IH]; intros out Hall; [reflexivity|].
  apply Forall_cons in Hall as [Hkv Hall].
  cbn [map foldl]. rewrite (parse_part_well_formed out kv Hkv), (IH _ Hall).
  rewrite reverse_cons, foldr_app. reflexivity.
Qed.

Lemma render_no_semicolon kv :
  Config.well_formed kv = true -> Text.contains ";" (Config.render kv) = false.
Proof.
  unfold Config.well_formed. intros H.
  apply andb_true_iff in H as [H _]. apply andb_true_iff in H as [Hk Hv].
  apply plain_spec in Hk as (_ & _ & Hk). apply plain_spec in Hv as (_ & _ & Hv).
  unfold Config.render. induction (fst kv) as [|c k IH]; simpl in *.
  - exact Hv.
  - apply orb_false_iff in Hk as [Hc Hk]. rewrite Hc. now apply IH.
Qed.

(** X1.  A connection string that lists well-formed pairs is parsed
    back into exactly these pairs, a later pair overriding an earlier
    one with the same key; with distinct keys every listed pair is found
    and nothing else is. *)
Theorem X1_parse_connection_string_round_trip (pairs : list (string * string)) :
  Forall (fun kv => Config.well_formed kv = true) pairs ->
  Server.parseConnectionString (Config.connection_string pairs)
    = list_to_map (reverse pairs) /\
  (NoDup (map fst pairs) ->
   forall k v, (k, v) ∈ pairs ->
     Server.parseConnectionString (Config.connection_string pairs) !! k = Some v) /\
  (forall k, k ∉ map fst pairs ->
     Server.parseConnectionString (Config.connection_string pairs) !! k = None).
Proof.
  intros Hall.
  assert (Hmap : Server.parseConnectionString (Config.connection_string pairs)
                 = list_to_map (reverse pairs)).
  { unfold Server.parseConnectionString, Config.connection_string.
    destruct pairs as [|kv pairs]; [reflexivity|].
    rewrite split_join.
    - now rewrite foldl_parse_rendered.
    - discriminate.
    - apply Forall_fmap. eapply Forall_impl; [exact Hall|].
      intros kv' Hkv. now apply render_no_semicolon. }
  split; [exact Hmap|]. rewrite Hmap. split.
  - intros Hnodup k v Hin. apply elem_of_list_to_map_1.
    + rewrite fmap_reverse, reverse_Permutation. exact Hnodup.
    + now apply elem_of_reverse.
  - intros k Hk. apply not_elem_of_list_to_map_1.
    rewrite fmap_reverse, elem_of_reverse. exact Hk.
Qed.

Lemma X1_parse_connection_string_round_trip_witness :
  Server.parseConnectionString
    "AccountName=devstoreaccount1;AccountKey=abc123;BlobEndpoint=http://localhost:10000"
  !! "BlobEndpoint" = Some "http://localhost:10000".
Proof.
  destruct (X1_parse_connection_string_round_trip
              [ ("AccountName", "devstoreaccount1"); ("AccountKey", "abc123");
                ("BlobEndpoint", "http://localhost:10000") ])
    as (Hmap & _ & _).
  - repeat constructor.
  - change (Server.parseConnectionString
              "AccountName=devstoreaccount1;AccountKey=abc123;BlobEndpoint=http://localhost:10000")
      with (Server.parseConnectionString
              (Config.connection_string
                 [ ("AccountName", "devstoreaccount1"); ("AccountKey", "abc123");
                   ("BlobEndpoint", "http://localhost:10000") ])).
    rewrite Hmap. reflexivity.
Defined.

(** One more part at the end is one more run of the loop body. *)
Lemma parse_appended_part cs p :
  Text.contains ";" p = false ->
  Server.parseConnectionString (cs +:+ ";" +:+ p)
  = Server.parse_part (Server.parseConnectionString cs) p.
Proof.
  intros Hp. unfold Server.parseConnectionString.
  change (cs +:+ ";" +:+ p) with (cs +:+ String ";" p).
  rewrite (split_append ";" cs p Hp), foldl_app. reflexivity.
Qed.

(** X2.  A well-formed pair appended to any connection string wins over
    whatever the string said about its key, and changes no other key. *)
Theorem X2_appended_pair_overrides (cs : string) (kv : string * string) :
  Config.well_formed kv = true ->
  Server.parseConnectionString (cs +:+ ";" +:+ Config.render kv) !! fst kv
    = Some (snd kv) /\
  forall k, k <> fst kv ->
    Server.parseConnectionString (cs +:+ ";" +:+ Config.render kv) !! k
    = Server.parseConnectionString cs !! k.
Proof.
  intros Hkv.
  rewrite parse_appended_part by now apply render_no_semicolon.
  rewrite parse_part_well_formed by exact Hkv. split.
  - apply lookup_insert_eq.
  - intros k Hk. apply lookup_insert_ne. congruence.
Qed.

Lemma X2_appended_pair_overrides_witness :
  Server.parseConnectionString
    ("AccountKey=abc123;BlobEndpoint=http://azurite:10000" +:+ ";"
       +:+ "AccountKey=def456") !! "AccountKey" = Some "def456".
Proof.
  destruct (X2_appended_pair_overrides
              "AccountKey=abc123;BlobEndpoint=http://azurite:10000"
              ("AccountKey", "def456") eq_refl) as [H _].
  exact H.
Defined.

Lemma parse_part_ignored (out : gmap string string) p :
  Config.ignored p = true -> Server.parse_part out p = out.
Proof.
  unfold Config.ignored, Server.parse_part. intros H.
  apply negb_true_iff in H.
  destruct (JS.split "=" p !! 0%nat); [|reflexivity].
  destruct (JS.split "=" p !! 1%nat); [|reflexivity].
  now rewrite H.
Qed.

(** X3.  Parts that are empty, hold no [=], start with [=], or have
    nothing or another [=] right after their first [=] store nothing:
    appended to a connection string (as a trailing [;] appends the empty
    part) they leave the parsed result as it was. *)
Theorem X3_malformed_parts_are_skipped (cs p : string) :
  Text.contains ";" p = false ->
  (Text.contains "=" p = false \/
   (exists x, p = "=" +:+ x) \/
   (exists k x, Text.contains "=" k = false /\
                (p = k +:+ "=" \/ p = k +:+ "==" +:+ x))) ->
  Server.parseConnectionString (cs +:+ ";" +:+ p)
  = Server.parseConnectionString cs.
Proof.
  intros Hsemi Hshape.
  rewrite parse_appended_part by exact Hsemi.
  apply parse_part_ignored. unfold Config.ignored.
  destruct Hshape as [Hno|[[x ->]|(k & x & Hk & [->| ->])]].
  - rewrite (split_no_sep "=" p Hno). simpl. now rewrite andb_false_r.
  - reflexivity.
  - change (k +:+ "=") with (k +:+ String "=" "").
    rewrite (split_key "=" k "" Hk). simpl.
    now rewrite andb_false_r.
  - change (k +:+ "==" +:+ x) with (k +:+ String "=" (String "=" x)).
    rewrite (split_key "=" k _ Hk). simpl.
    now rewrite andb_false_r.
Qed.

Lemma X3_malformed_parts_are_skipped_witness :
  Server.parseConnectionString ("AccountName=devstoreaccount1" +:+ ";" +:+ "")
  = Server.parseConnectionString "AccountName=devstoreaccount1" /\
  Server.parseConnectionString
    ("AccountName=devstoreaccount1" +:+ ";" +:+ "AccountKey==abc")
  = Server.parseConnectionString "AccountName=devstoreaccount1".
Proof.
  split.
  - apply (X3_malformed_parts_are_skipped "AccountName=devstoreaccount1" "").
    + reflexivity.
    + left. reflexivity.
  - apply (X3_malformed_parts_are_skipped "AccountName=devstoreaccount1"
             "AccountKey==abc").
    + reflexivity.
    + right. right. exists "AccountKey", "abc". split; [reflexivity|].
      right. reflexivity.
Defined.

(** A piece of a string without the character [c] is without it too. *)
Lemma split_pieces_keep_absent c sep s : forall i x,
  Text.contains c s = false ->
  JS.split sep s !! i = Some x -> Text.contains c x = false.
Proof.
  induction s as [|a s IH]; intros i x Hc H.
  - destruct i; [|discriminate]. now injection H as <-.
  - simpl in Hc. apply orb_false_iff in Hc as [Ha Hs].
    simpl in H. destruct (Ascii.eqb a sep).
    + destruct i; [now injection H as <-|]. now apply (IH i).
    + destruct (JS.split sep s) as [|piece pieces] eqn:Hsplit.
      * destruct i; [|discriminate]. injection H as <-. simpl. now rewrite Ha.
      * destruct i.
        -- injection H as <-. simpl. rewrite Ha. now apply (IH 0%nat).
        -- now apply (IH (S i)).
Qed.

(** X4.  Whatever the connection string, every key and every value of
    the parsed result is non-empty and holds neither [=] nor [;], and
    ["__proto__"] is never a key. *)
Theorem X4_parsed_entries_are_plain (cs k v : string) :
  Server.parseConnectionString cs !! k = Some v ->
  Config.plain k = true /\ Config.plain v = true /\ k <> "__proto__".
Proof.
  unfold Server.parseConnectionString.
  assert (Hparts : forall i p, JS.split ";" cs !! i = Some p ->
            Text.contains ";" p = false)
    by (intros i p; apply split_pieces_no_sep).
  revert Hparts. generalize (JS.split ";" cs). intros parts.
  assert (Hgen : forall out : gmap string string,
    (forall k v, out !! k = Some v ->
       Config.plain k = true /\ Config.plain v = true /\ k <> "__proto__") ->
    (forall i p, parts !! i = Some p -> Text.contains ";" p = false) ->
    foldl Server.parse_part out parts !! k = Some v ->
    Config.plain k = true /\ Config.plain v = true /\ k <> "__proto__").
  { induction parts as [|p parts IH]; intros out Hout Hparts; [apply Hout|].
    cbn [foldl]. apply IH.
    - intros k0 v0. unfold Server.parse_part.
      destruct (JS.split "=" p !! 0%nat) as [key|] eqn:Hkey; [|apply Hout].
      destruct (JS.split "=" p !! 1%nat) as [value|] eqn:Hvalue; [|apply Hout].
      destruct (JS.truthy (Some key) && JS.truthy (Some value)
                && negb (String.eqb key "__proto__")) eqn:Hcond; [|apply Hout].
      destruct (decide (key = k0)) as [<-|Hne];
        [|rewrite lookup_insert_ne by exact Hne; apply Hout].
      rewrite lookup_insert_eq. intros [= <-].
      apply andb_true_iff in Hcond as [Hcond Hproto].
      apply andb_true_iff in Hcond as [Htk Htv].
      pose proof (Hparts 0%nat p eq_refl) as Hsemi.
      unfold Config.plain.
      rewrite (split_pieces_no_sep "=" p _ _ Hkey),
        (split_pieces_no_sep "=" p _ _ Hvalue),
        (split_pieces_keep_absent ";" "=" p _ _ Hsemi Hkey),
        (split_pieces_keep_absent ";" "=" p _ _ Hsemi Hvalue).
      destruct key; [discriminate Htk|]. destruct value; [discriminate Htv|].
      repeat split.
      intros E. rewrite E in Hproto. discriminate Hproto.
    - intros i q Hq. apply (Hparts (S i) q Hq). }
  intros Hparts. apply Hgen; [|exact Hparts].
  intros k0 v0 H. rewrite lookup_empty in H. discriminate.
Qed.

Lemma X4_parsed_entries_are_plain_witness :
  Config.plain "BlobEndpoint" = true /\
  Config.plain "http://127.0.0.1:10000/devstoreaccount1" = true /\
  "BlobEndpoint" <> "__proto__".
Proof.
  apply (X4_parsed_entries_are_plain Sample.azurite). reflexivity.
Defined.

(** X5.  A key that no part of the connection string has before its
    first [=] is absent from the parsed result; a connection string
    without an [AccountKey] part therefore stops the server at
    start-up, in the constructor of the credential, whatever the rest
    of the string says. *)
Theorem X5_missing_key_is_undefined
    (fromConnectionString : string -> Result unit) (cs k : string) :
  Forall (fun p => Text.before_first "=" p <> k) (JS.split ";" cs) ->
  Server.parseConnectionString cs !! k = None /\
  (k = "AccountKey" ->
   SDK.new_StorageSharedKeyCredential (Server.sharedKeyCredential cs)
     = Throw "The first argument must be of type string or an instance of Buffer, ArrayBuffer, or Array or an Array-like Object. Received undefined" /\
   exists message,
     Server.startup fromConnectionString (Some cs) = Throw message).
Proof.
  intros Hparts.
  assert (Hnone : Server.parseConnectionString cs !! k = None).
  { unfold Server.parseConnectionString.
    rewrite fold_other_keys; [apply lookup_empty|].
    eapply Forall_impl; [exact Hparts|]. intros p Hp.
    destruct (split_head "=" p) as [rest ->]. cbn. congruence. }
  split; [exact Hnone|]. intros ->.
  assert (Hnew : SDK.new_StorageSharedKeyCredential (Server.sharedKeyCredential cs)
                 = Throw "The first argument must be of type string or an instance of Buffer, ArrayBuffer, or Array or an Array-like Object. Received undefined").
  { unfold SDK.new_StorageSharedKeyCredential, Server.sharedKeyCredential.
    cbn [SDK.accountKey]. now rewrite Hnone. }
  split; [exact Hnew|].
  unfold Server.startup. destruct cs as [|c cs]; [now eexists|].
  rewrite Hnew. now eexists.
Qed.

Lemma X5_missing_key_is_undefined_witness :
  exists message,
    Server.startup (fun _ => Ok tt)
      (Some "AccountName=devstoreaccount1;BlobEndpoint=http://azurite:10000")
    = Throw message.
Proof.
  destruct (X5_missing_key_is_undefined (fun _ => Ok tt)
              "AccountName=devstoreaccount1;BlobEndpoint=http://azurite:10000"
              "AccountKey") as [_ H].
  - vm_compute. repeat (apply List.Forall_cons; [discriminate|]).
    apply List.Forall_nil.
  - exact (proj2 (H eq_refl)).
Defined.

(** ** The issuance handler: failures, bounds and bookkeeping *)

Section HandlerMore.

Variable rt : Server.Runtime.
Variable sdk : Server.Storage.
Variable credential : SDK.StorageSharedKeyCredential.

Local Open Scope nat_scope.

(** The first run of the callback whose values the signer rejects ends
    the whole map with the signer's message. *)
Lemma map_times_throw n : forall st j e,
  j < n ->
  (forall i, i < j -> exists token,
     Server.generateBlobSASQueryParameters sdk
       (Trace.values_at rt (Server.ticks st + 3 * i) (Server.draws st + i))
       credential = Ok token) ->
  Server.generateBlobSASQueryParameters sdk
    (Trace.values_at rt (Server.ticks st + 3 * j) (Server.draws st + j))
    credential = Throw e ->
  Server.map_times n (Server.make_upload_url rt sdk credential) st = Throw e.
Proof.
  induction n as [|n IH]; intros st j e Hj Hbefore Hat; [lia|].
  cbn [Server.map_times]. unfold Server.bind.
  rewrite make_upload_url_run. unfold Trace.record_at.
  destruct j as [|j].
  - rewrite !Nat.add_0_r in Hat. now rewrite Hat.
  - destruct (Hbefore 0) as [token Htoken]; [lia|].
    rewrite !Nat.add_0_r in Htoken. rewrite Htoken.
    rewrite (IH (Trace.after rt 1 st) j e); [reflexivity|lia| |].
    + intros i Hi. destruct (Hbefore (S i)) as [t Ht]; [lia|].
      exists t. rewrite <- Ht. unfold Trace.after.
      cbn [Server.ticks Server.draws]. f_equal. f_equal; lia.
    + rewrite <- Hat. unfold Trace.after.
      cbn [Server.ticks Server.draws]. f_equal. f_equal; lia.
Qed.

End HandlerMore.

(** X6.  Whatever is thrown inside the handler becomes a status-500
    answer that carries the message and no record: when the container
    check throws, and when the signer rejects the values of some run of
    the callback after accepting those of the runs before it. *)
Theorem X6_any_throw_is_a_500
    (rt : Server.Runtime) (sdk : Server.Storage)
    (credential : SDK.StorageSharedKeyCredential)
    (count : Server.QueryValue) (st : Server.State)
    (len j : nat) (e : string) :
  Server.createIfNotExists sdk "images" = Throw e \/
  ((exists u, Server.createIfNotExists sdk "images" = Ok u) /\
   JS.Array_from_length
     (JS.or_else (JS.parseInt (Server.ToString count)) (JS.Num 1)) = Ok len /\
   (j < len)%nat /\
   (forall i, (i < j)%nat -> exists token,
      Server.generateBlobSASQueryParameters sdk
        (Trace.values_at rt (Server.ticks st + 3 * i) (Server.draws st + i))
        credential = Ok token) /\
   Server.generateBlobSASQueryParameters sdk
     (Trace.values_at rt (Server.ticks st + 3 * j) (Server.draws st + j))
     credential = Throw e) ->
  Server.handler rt sdk credential count st
  = Server.Status500 ("<h1>Error</h1><p>" +:+ e +:+ "</p>").
Proof.
  intros [Hcheck|([u Hcheck] & Hlen & Hj & Hbefore & Hat)];
    unfold Server.handler; rewrite upload_urls_run, Hcheck; [reflexivity|].
  rewrite Hlen.
  now rewrite (map_times_throw rt sdk credential len st j e Hj Hbefore Hat).
Qed.

Lemma X6_any_throw_is_a_500_witness :
  Server.handler Sample.ticking (Sample.fails_on_second Sample.ticking)
    Sample.credential (Server.QString "3") Sample.start
  = Server.Status500 "<h1>Error</h1><p>Invalid key</p>".
Proof.
  apply (X6_any_throw_is_a_500 Sample.ticking
           (Sample.fails_on_second Sample.ticking) Sample.credential
           (Server.QString "3") Sample.start 3 1 "Invalid key").
  right. split; [exists tt; reflexivity|]. split; [reflexivity|].
  split; [lia|]. split; [|reflexivity].
  intros i Hi. assert (i = 0%nat) as -> by lia. eexists. reflexivity.
Defined.

(** X7.  A decimal count of 2^32 or more is answered with status 500
    and the message of the range error, as soon as the container check
    has passed; the signer is not involved. *)
Theorem X7_count_beyond_array_length
    (rt : Server.Runtime) (sdk : Server.Storage)
    (credential : SDK.StorageSharedKeyCredential)
    (st : Server.State) (N : Z) :
  2 ^ 32 <= N ->
  (exists u, Server.createIfNotExists sdk "images" = Ok u) ->
  Server.handler rt sdk credential (Server.QString (JS.Number_toString N)) st
  = Server.Status500 "<h1>Error</h1><p>Invalid array length</p>".
Proof.
  intros HN [u Hcheck]. unfold Server.handler.
  rewrite upload_urls_run, Hcheck. cbn [Server.ToString].
  rewrite parseInt_decimal.
  assert (Hthrow : JS.Array_from_length (JS.or_else (JS.Num N) (JS.Num 1))
                   = Throw "Invalid array length").
  { unfold JS.or_else. assert (H32 : 0 < 2 ^ 32) by reflexivity.
    destruct (Z.eqb_spec N 0) as [|_]; [lia|].
    unfold JS.Array_from_length, JS.ToLength.
    assert (H53 : 2 ^ 32 - 1 < 2 ^ 53 - 1) by reflexivity.
    destruct (Z.leb_spec (Z.min (Z.max N 0) (2 ^ 53 - 1)) (2 ^ 32 - 1));
      [lia | reflexivity]. }
  now rewrite Hthrow.
Qed.

Lemma X7_count_beyond_array_length_witness :
  Server.handler Sample.frozen Sample.storage Sample.credential
    (Server.QString "5000000000") Sample.start
  = Server.Status500 "<h1>Error</h1><p>Invalid array length</p>".
Proof.
  apply (X7_count_beyond_array_length Sample.frozen Sample.storage
           Sample.credential Sample.start 5000000000).
  - vm_compute. discriminate.
  - exists tt. reflexivity.
Defined.

Lemma trim_start_whitespace ws s :
  Query.all_whitespace ws = true ->
  JS.trim_start (ws +:+ s) = JS.trim_start s.
Proof.
  unfold Query.all_whitespace. intros H. apply String.eqb_eq in H.
  remember (String.length ws) as n eqn:Hn.
  assert (Hle : (String.length ws <= n)%nat) by lia. clear Hn.
  revert ws H Hle. induction n as [|n IH]; intros ws H Hle.
  - destruct ws; [reflexivity | simpl in Hle; lia].
  - destruct ws as [|c1 s1]; [reflexivity|].
    change (String c1 s1 +:+ s) with (String c1 (s1 +:+ s)).
    cbn [JS.trim_start] in H |- *. simpl in Hle.
    destruct (JS.is_whitespace c1); [apply IH; [exact H | lia]|].
    destruct s1 as [|c2 s2]; [discriminate H|].
    change (String c2 s2 +:+ s) with (String c2 (s2 +:+ s)). cbv iota.
    simpl in Hle.
    destruct (JS.is_whitespace2 c1 c2); [apply IH; [exact H | lia]|].
    destruct s2 as [|c3 s3]; [discriminate H|].
    change (String c3 s3 +:+ s) with (String c3 (s3 +:+ s)). cbv iota.
    simpl in Hle.
    destruct (JS.is_whitespace3 c1 c2 c3); [apply IH; [exact H | lia]|].
    discriminate H.
Qed.

(** X8.  The count is read from the numeric prefix of the parameter:
    white space before a decimal numeral is skipped and whatever follows
    the numeral without continuing it is ignored; every JSON answer to
    such a value holds as many records as the numeral says. *)
Theorem X8_count_is_the_numeric_prefix
    (rt : Server.Runtime) (sdk : Server.Storage)
    (credential : SDK.StorageSharedKeyCredential)
    (st : Server.State) (ws rest : string) (N : Z)
    (urls : list Server.UploadUrl) :
  Query.all_whitespace ws = true ->
  Text.ends_number rest = true ->
  1 <= N ->
  Server.handler rt sdk credential
    (Server.QString (ws +:+ JS.Number_toString N +:+ rest)) st
    = Server.Json urls ->
  JS.parseInt (ws +:+ JS.Number_toString N +:+ rest) = JS.Num N /\
  Z.of_nat (length urls) = N.
Proof.
  intros Hws Hrest HN Hjson.
  assert (Hparse : JS.parseInt (ws +:+ JS.Number_toString N +:+ rest) = JS.Num N).
  { rewrite <- (parseInt_Number_toString N rest Hrest).
    unfold JS.parseInt. now rewrite trim_start_whitespace. }
  split; [exact Hparse|].
  apply handler_json in Hjson as (len & st' & Hlen & Hrun).
  cbn [Server.ToString] in Hlen. rewrite Hparse in Hlen.
  apply Array_from_length_inv in Hlen as [_ ->]; [|exact HN].
  apply map_times_run in Hrun as (_ & Hl & _). lia.
Qed.

Lemma X8_count_is_the_numeric_prefix_witness :
  JS.parseInt (String "194" (String "160" " 2px")) = JS.Num 2 /\
  exists urls,
    Server.handler Sample.frozen Sample.storage Sample.credential
      (Server.QString (String "194" (String "160" " 2px"))) Sample.start
    = Server.Json urls /\
    length urls = 2%nat.
Proof.
  destruct (X8_count_is_the_numeric_prefix Sample.frozen Sample.storage
              Sample.credential Sample.start
              (String "194" (String "160" " ")) "px" 2
              (match Server.handler Sample.frozen Sample.storage
                       Sample.credential
                       (Server.QString (String "194" (String "160" " 2px")))
                       Sample.start with
               | Server.Json urls => urls
               | Server.Status500 _ => []
               end))
    as (Hparse & Hl).
  - reflexivity.
  - reflexivity.
  - lia.
  - vm_compute. reflexivity.
  - split; [exact Hparse|]. eexists.
    split; [vm_compute; reflexivity | vm_compute; reflexivity].
Defined.

Lemma substring_length_le n m s :
  (String.length (String.substring n m s) <= m)%nat.
Proof.
  revert n m. induction s as [|c s IH]; intros [|n] [|m]; simpl; try lia.
  - specialize (IH 0%nat m). lia.
  - apply (IH n 0%nat).
  - apply (IH n (S m)).
Qed.

(** X9.  In a successful response the [fileUrl] of a record is the URL
    of its blob in the container ["images"], its [uploadUrl] is that same
    URL followed by [?] and a token, and its [blobName] is [image-], the
    decimal clock reading, [-], at most 13 characters taken from the
    third character on of the random draw, and [.jpg]. *)
Theorem X9_record_shape
    (rt : Server.Runtime) (sdk : Server.Storage)
    (credential : SDK.StorageSharedKeyCredential)
    (count : Server.QueryValue) (st st' : Server.State)
    (urls : list Server.UploadUrl) (k : nat) (r : Server.UploadUrl) :
  Server.upload_urls rt sdk credential count st = Ok (urls, st') ->
  urls !! k = Some r ->
  Server.fileUrl r = Server.blobUrl sdk "images" (Server.blobName r) /\
  (exists token, Server.uploadUrl r = Server.fileUrl r +:+ "?" +:+ token) /\
  exists suffix,
    suffix = JS.substring 2 15 (Server.random36 rt (Server.draws st + k)) /\
    (String.length suffix <= 13)%nat /\
    Server.blobName r =
      "image-" +:+ JS.Number_toString (Server.clock rt (Server.ticks st + 3 * k))
        +:+ "-" +:+ suffix +:+ ".jpg".
Proof.
  intros Hrun Hk.
  rewrite upload_urls_run in Hrun.
  destruct (Server.createIfNotExists sdk "images"); [|discriminate].
  destruct (JS.Array_from_length _) as [len|]; [|discriminate].
  apply map_times_run in Hrun as (_ & _ & Hrec).
  specialize (Hrec k r Hk). unfold Trace.record_at in Hrec.
  destruct (Server.generateBlobSASQueryParameters sdk _ credential)
    as [token|]; [|discriminate].
  injection Hrec as <-. cbn [Server.fileUrl Server.uploadUrl Server.blobName].
  split; [reflexivity|]. split; [now exists token|].
  eexists. split; [reflexivity|].
  split; [apply (substring_length_le 2 13)|]. reflexivity.
Qed.

Lemma X9_record_shape_witness :
  Server.fileUrl
    {| Server.blobName := "image-1763247782909-2n9zyybjrf4.jpg";
       Server.uploadUrl := "http://azurite:10000/devstoreaccount1/images/image-1763247782909-2n9zyybjrf4.jpg?sv=2025-11-05&spr=https,http&st=1763247782909&se=1763248082909&sr=b&sp=w&sig=c2ln";
       Server.fileUrl := "http://azurite:10000/devstoreaccount1/images/image-1763247782909-2n9zyybjrf4.jpg" |}
  = Server.blobUrl Sample.storage "images" "image-1763247782909-2n9zyybjrf4.jpg".
Proof.
  destruct (X9_record_shape Sample.frozen Sample.storage Sample.credential
              (Server.QString "1") Sample.start
              (Trace.after Sample.frozen 1 Sample.start)
              [ {| Server.blobName := "image-1763247782909-2n9zyybjrf4.jpg";
                   Server.uploadUrl := "http://azurite:10000/devstoreaccount1/images/image-1763247782909-2n9zyybjrf4.jpg?sv=2025-11-05&spr=https,http&st=1763247782909&se=1763248082909&sr=b&sp=w&sig=c2ln";
                   Server.fileUrl := "http://azurite:10000/devstoreaccount1/images/image-1763247782909-2n9zyybjrf4.jpg" |} ]
              0%nat _ eq_refl eq_refl) as (H & _).
  exact H.
Defined.

(** X10.  A successful request reads the clock three times and draws one
    random number per record returned, and hands the signer exactly one
    set of values per record, after those of earlier requests, which it
    leaves as they were. *)
Theorem X10_one_signature_per_record
    (rt : Server.Runtime) (sdk : Server.Storage)
    (credential : SDK.StorageSharedKeyCredential)
    (count : Server.QueryValue) (st st' : Server.State)
    (urls : list Server.UploadUrl) :
  Server.upload_urls rt sdk credential count st = Ok (urls, st') ->
  Server.ticks st' = (Server.ticks st + 3 * length urls)%nat /\
  Server.draws st' = (Server.draws st + length urls)%nat /\
  length (Server.signed st') = (length (Server.signed st) + length urls)%nat /\
  take (length (Server.signed st)) (Server.signed st') = Server.signed st /\
  map SDK.blobName (drop (length (Server.signed st)) (Server.signed st'))
    = map Server.blobName urls.
Proof.
  intros Hrun.
  rewrite upload_urls_run in Hrun.
  destruct (Server.createIfNotExists sdk "images"); [|discriminate].
  destruct (JS.Array_from_length _) as [len|]; [|discriminate].
  apply map_times_run in Hrun as (-> & Hlen & Hrec).
  unfold Trace.after. cbn [Server.ticks Server.draws Server.signed].
  rewrite length_app, length_map, length_seq, Hlen.
  rewrite take_app_length, drop_app_length.
  repeat split.
  apply list_eq. intros i. rewrite !list_lookup_fmap.
  destruct (decide (i < len)%nat) as [Hi|Hi].
  - rewrite (lookup_seq_lt 0 len i Hi).
    destruct (lookup_lt_is_Some_2 urls i ltac:(lia)) as [r Hr].
    rewrite Hr. cbn. specialize (Hrec i r Hr). unfold Trace.record_at in Hrec.
    destruct (Server.generateBlobSASQueryParameters sdk _ credential);
      [|discriminate].
    now injection Hrec as <-.
  - rewrite (lookup_seq_ge 0 len i) by lia.
    rewrite (lookup_ge_None_2 urls i) by lia. reflexivity.
Qed.

Lemma X10_one_signature_per_record_witness :
  length (Server.signed (Trace.after Sample.ticking 3 Sample.start)) = 3%nat.
Proof.
  destruct (X10_one_signature_per_record Sample.ticking Sample.storage
              Sample.credential (Server.QString "3") Sample.start
              (Trace.after Sample.ticking 3 Sample.start)
              (match Server.upload_urls Sample.ticking Sample.storage
                       Sample.credential (Server.QString "3") Sample.start with
               | Ok (urls, _) => urls
               | Throw _ => []
               end)
              eq_refl) as (_ & _ & H & _).
  exact H.
Defined.

Lemma string_app_assoc (a b c : string) : (a +:+ b) +:+ c = a +:+ b +:+ c.
Proof. induction a as [|x a IH]; simpl; [reflexivity | now rewrite IH]. Qed.

(** ** The upload agent against the issuance server *)

(** X11.  When the issuance server cannot reach the storage, its answer
    is not JSON: the agent prints the one error line of its final
    [catch] and sends no PUT at all. *)
Theorem X11_server_failure_stops_the_agent
    (rt : Server.Runtime) (sdk : Server.Storage)
    (credential : SDK.StorageSharedKeyCredential) (st : Server.State)
    (syntax_error : string -> string)
    (fetch : nat -> string -> Client.FetchResult) (e : string) :
  Server.createIfNotExists sdk "images" = Throw e ->
  Script.against_server rt sdk credential st syntax_error fetch
  = Script.Error_fetching_upload_urls
      (syntax_error ("<h1>Error</h1><p>" +:+ e +:+ "</p>")) /\
  Script.requests
    (Script.against_server rt sdk credential st syntax_error fetch) = [].
Proof.
  intros Hcheck.
  assert (H500 : Server.handler rt sdk credential (Server.QString "5") st
                 = Server.Status500 ("<h1>Error</h1><p>" +:+ e +:+ "</p>")).
  { unfold Server.handler. now rewrite upload_urls_run, Hcheck. }
  unfold Script.against_server. rewrite H500. split; reflexivity.
Qed.

(** X12.  Run against an issuance server whose container check passes,
    whose signer accepts the values of the five runs of the callback and
    whose URLs for the five blobs these runs name are under
    [http://azurite:10000], the agent sends exactly five PUTs, whatever
    their outcomes; the [k]-th goes to the [localhost:10000] address of
    the [k]-th blob and carries, after the [?], the token signed for
    that blob, unchanged. *)
Theorem X12_five_puts_with_their_tokens
    (rt : Server.Runtime) (sdk : Server.Storage)
    (credential : SDK.StorageSharedKeyCredential) (st : Server.State)
    (syntax_error : string -> string)
    (fetch : nat -> string -> Client.FetchResult) (base : string) :
  Server.createIfNotExists sdk "images" = Ok tt ->
  (forall k, (k < 5)%nat -> exists token,
      Server.generateBlobSASQueryParameters sdk
        (Trace.values_at rt (Server.ticks st + 3 * k) (Server.draws st + k))
        credential = Ok token) ->
  (forall k, (k < 5)%nat ->
      Server.blobUrl sdk "images"
        (Trace.name_at rt (Server.ticks st + 3 * k) (Server.draws st + k))
      = "http" +:+ "://" +:+ "azurite:10000" +:+ base +:+ "/images/"
          +:+ Trace.name_at rt (Server.ticks st + 3 * k) (Server.draws st + k)) ->
  length (Script.requests
            (Script.against_server rt sdk credential st syntax_error fetch))
    = 5%nat /\
  forall k, (k < 5)%nat ->
    exists token,
      Server.generateBlobSASQueryParameters sdk
        (Trace.values_at rt (Server.ticks st + 3 * k) (Server.draws st + k))
        credential = Ok token /\
      Script.requests
        (Script.against_server rt sdk credential st syntax_error fetch) !! k
      = Some ("http" +:+ "://" +:+ "localhost:10000" +:+ base +:+ "/images/"
                +:+ Trace.name_at rt (Server.ticks st + 3 * k) (Server.draws st + k)
                +:+ "?" +:+ token).
Proof.
  intros Hreach Hsign Hurl.
  assert (Hlen : JS.Array_from_length
                   (JS.or_else (JS.parseInt (Server.ToString (Server.QString "5")))
                      (JS.Num 1)) = Ok 5%nat) by reflexivity.
  destruct (map_times_ok rt sdk credential 5 st Hsign) as [urls Hrun].
  assert (Hh : Server.handler rt sdk credential (Server.QString "5") st
               = Server.Json urls).
  { unfold Server.handler. now rewrite upload_urls_run, Hreach, Hlen, Hrun. }
  apply map_times_run in Hrun as (_ & Hl & Hrec).
  unfold Script.against_server. rewrite Hh.
  cbn [Script.response_json Script.client Script.requests].
  unfold Client.upload_process. rewrite upload_all_run.
  cbn [Client.requests Client.say Client.initial app].
  rewrite length_map. split; [exact Hl|].
  intros k Hk.
  destruct (lookup_lt_is_Some_2 urls k ltac:(lia)) as [r Hr].
  specialize (Hrec k r Hr). unfold Trace.record_at in Hrec.
  rewrite (Hurl k Hk) in Hrec.
  destruct (Server.generateBlobSASQueryParameters sdk _ credential)
    as [token|] eqn:Htoken; [|discriminate].
  exists token. split; [reflexivity|].
  rewrite list_lookup_fmap, Hr. cbn [fmap option_fmap option_map]. f_equal.
  apply (f_equal (fun x => match x with
                           | Ok r' => Server.uploadUrl r'
                           | Throw _ => ""
                           end)) in Hrec.
  cbn beta iota in Hrec. cbn [Server.uploadUrl] in Hrec. rewrite <- Hrec.
  unfold Client.clientUploadUrl.
  rewrite !string_app_assoc, replace_host by reflexivity. reflexivity.
Qed.

Lemma X11_server_failure_stops_the_agent_witness :
  Script.requests
    (Script.against_server Sample.frozen
       {| Server.createIfNotExists := fun _ => Throw "connect ECONNREFUSED";
          Server.blobUrl := Server.blobUrl Sample.storage;
          Server.generateBlobSASQueryParameters :=
            Server.generateBlobSASQueryParameters Sample.storage |}
       Sample.credential Sample.start (fun _ => "Unexpected token")
       Sample.flaky) = [].
Proof.
  destruct (X11_server_failure_stops_the_agent Sample.frozen
              {| Server.createIfNotExists := fun _ => Throw "connect ECONNREFUSED";
                 Server.blobUrl := Server.blobUrl Sample.storage;
                 Server.generateBlobSASQueryParameters :=
                   Server.generateBlobSASQueryParameters Sample.storage |}
              Sample.credential Sample.start (fun _ => "Unexpected token")
              Sample.flaky "connect ECONNREFUSED" eq_refl) as [_ H].
  exact H.
Defined.

Lemma X12_five_puts_with_their_tokens_witness :
  Script.requests
    (Script.against_server Sample.frozen Sample.storage Sample.credential
       Sample.start (fun _ => "Unexpected token") Sample.flaky) !! 4%nat
  = Some "http://localhost:10000/devstoreaccount1/images/image-1763247782909-2n9zyybjrf4.jpg?sv=2025-11-05&spr=https,http&st=1763247782909&se=1763248082909&sr=b&sp=w&sig=c2ln".
Proof.
  destruct (X12_five_puts_with_their_tokens Sample.frozen Sample.storage
              Sample.credential Sample.start (fun _ => "Unexpected token")
              Sample.flaky "/devstoreaccount1")
    as (_ & Hk).
  - reflexivity.
  - intros k Hk. eexists. reflexivity.
  - intros k Hk. reflexivity.
  - destruct (Hk 4%nat ltac:(lia)) as (token & Htoken & Hreq).
    rewrite Hreq. injection Htoken as <-. reflexivity.
Defined.

(** ** The hostname conversion touches one occurrence only *)

Lemma replace_unfold pattern replacement s :
  JS.replace pattern replacement s =
  if String.prefix pattern s
  then replacement +:+ JS.drop (String.length pattern) s
  else match s with
       | EmptyString => EmptyString
       | String c s' => String c (JS.replace pattern replacement s')
       end.
Proof. destruct s; reflexivity. Qed.

Lemma prefix_self_app pattern s : String.prefix pattern (pattern +:+ s) = true.
Proof.
  induction pattern as [|a pattern IH]; [apply prefix_nil|].
  cbn [String.append String.prefix].
  destruct (ascii_dec a a); [exact IH | congruence].
Qed.

Lemma drop_self_app pattern s :
  JS.drop (String.length pattern) (pattern +:+ s) = s.
Proof.
  induction pattern as [|a pattern IH]; [now destruct s|].
  cbn [String.length String.append JS.drop]. exact IH.
Qed.

(** A match at the start of a string is decided by as many characters
    as the pattern has. *)
Lemma prefix_app_long pattern : forall s x,
  (String.length pattern <= String.length s)%nat ->
  String.prefix pattern (s +:+ x) = String.prefix pattern s.
Proof.
  induction pattern as [|a pattern IH]; intros s x Hlen.
  - now rewrite !prefix_nil.
  - destruct s as [|b s]; [simpl in Hlen; lia|].
    cbn [String.append String.prefix].
    destruct (ascii_dec a b); [|reflexivity].
    apply IH. simpl in Hlen. lia.
Qed.

(** The first occurrence of the pattern is the one replaced: what
    follows it is copied, further occurrences included. *)
Lemma replace_first_occurrence (q : string) (z : ascii) replacement :
  forall before after,
  Text.occurs (q +:+ String z "") (before +:+ q) = false ->
  JS.replace (q +:+ String z "") replacement
    (before +:+ (q +:+ String z "") +:+ after)
  = before +:+ replacement +:+ after.
Proof.
  induction before as [|c before IH]; intros after Hocc.
  - change ("" +:+ (q +:+ String z "") +:+ after)
      with ((q +:+ String z "") +:+ after).
    rewrite replace_unfold, prefix_self_app, drop_self_app. reflexivity.
  - change (String c before +:+ q) with (String c (before +:+ q)) in Hocc.
    cbn [Text.occurs] in Hocc. apply orb_false_iff in Hocc as [Hpre Hocc].
    rewrite replace_unfold.
    assert (Hno : String.prefix (q +:+ String z "")
                    (String c before +:+ (q +:+ String z "") +:+ after) = false).
    { rewrite <- Hpre.
      replace (String c before +:+ (q +:+ String z "") +:+ after)
        with (String c (before +:+ q) +:+ (String z after)).
      - apply prefix_app_long. cbn [String.length].
        rewrite !string_length_app. cbn [String.length]. lia.
      - cbn [String.append]. f_equal.
        now rewrite !string_app_assoc. }
    rewrite Hno. cbn [String.append]. f_equal. now apply IH.
Qed.

(** X13.  The conversion replaces the first [azurite:10000] of the URL
    and nothing else: what follows that occurrence is copied as it is,
    even when it holds [azurite:10000] again. *)
Theorem X13_only_the_first_occurrence (before after : string) :
  Text.occurs "azurite:10000" (before +:+ "azurite:1000") = false ->
  Client.clientUploadUrl (before +:+ "azurite:10000" +:+ after)
  = before +:+ "localhost:10000" +:+ after.
Proof.
  intros Hocc. unfold Client.clientUploadUrl.
  exact (replace_first_occurrence "azurite:1000" "0" "localhost:10000"
           before after Hocc).
Qed.

Lemma X13_only_the_first_occurrence_witness :
  Client.clientUploadUrl
    "http://azurite:10000/devstoreaccount1/images/azurite:10000.jpg?sig=c2ln"
  = "http://localhost:10000/devstoreaccount1/images/azurite:10000.jpg?sig=c2ln".
Proof.
  exact (X13_only_the_first_occurrence "http://"
           "/devstoreaccount1/images/azurite:10000.jpg?sig=c2ln" eq_refl).
Defined.

(** ** The sweep: what is printed, and a listing that fails *)

Lemma delete_each_exact storage blobs : forall successCount failCount st,
  Cleanup.delete_each storage blobs successCount failCount st =
  ((successCount + Outcome.succeeded storage (length (Cleanup.attempted st)) blobs)%nat,
   (failCount + Outcome.failed storage (length (Cleanup.attempted st)) blobs)%nat,
   {| Cleanup.log :=
        Cleanup.log st ++
        SweepLog.deletion_lines storage (length (Cleanup.attempted st)) blobs;
      Cleanup.attempted := Cleanup.attempted st ++ blobs |}).
Proof.
  induction blobs as [|b blobs IH]; intros s f st.
  - simpl. rewrite !app_nil_r, !Nat.add_0_r. now destruct st.
  - cbn [Cleanup.delete_each Outcome.succeeded Outcome.failed
         SweepLog.deletion_lines].
    destruct (Cleanup.delete storage (length (Cleanup.attempted st)) b)
      as [u|message]; rewrite IH;
      cbn [Cleanup.say Cleanup.attempt Cleanup.log Cleanup.attempted];
      rewrite length_app; cbn [length]; rewrite Nat.add_1_r, <- !app_assoc;
      cbn [app]; now rewrite Nat.add_succ_comm.
Qed.

Lemma found_lines_log (blobs : list Cleanup.BlobItem) : forall st,
  Cleanup.log
    (fold_left (fun st blob =>
                  Cleanup.say (Cleanup.Found (Cleanup.name blob)
                                 (Cleanup.contentLength blob)) st) blobs st)
  = (Cleanup.log st ++ SweepLog.found_lines blobs)%list.
Proof.
  induction blobs as [|b blobs IH]; intros st; simpl.
  - now rewrite app_nil_r.
  - rewrite IH. cbn [Cleanup.say Cleanup.log]. now rewrite <- app_assoc.
Qed.

(** X14.  When the listing throws, even after it has yielded blobs, the
    sweep prints the blobs yielded so far, makes no delete call, prints
    the failure and exits with status 1. *)
Theorem X14_failed_listing_deletes_nothing
    (storage : Cleanup.Storage) (blobs : list Cleanup.BlobItem)
    (message : string) :
  Cleanup.container_exists storage = Ok true ->
  Cleanup.listBlobsFlat storage = (blobs, Some message) ->
  fst (Cleanup.main storage) = 1 /\
  Cleanup.attempted (snd (Cleanup.main storage)) = [] /\
  Cleanup.log (snd (Cleanup.main storage)) =
    ([ Cleanup.Starting_cleanup; Cleanup.Cleaning_up_container "images";
       Cleanup.Container_exists "images" ]
     ++ SweepLog.found_lines blobs
     ++ [ Cleanup.Cleanup_failed message; Cleanup.Error_dump message ])%list.
Proof.
  intros Hexists Hlist. unfold Cleanup.main, Cleanup.cleanupContainer.
  rewrite Hexists, Hlist. cbn [fst snd].
  rewrite !say_attempted, !say_log, found_lines_attempted, found_lines_log.
  repeat split. cbn [Cleanup.say Cleanup.log Cleanup.initial app].
  now rewrite <- !app_assoc.
Qed.

Lemma X14_failed_listing_deletes_nothing_witness :
  fst (Cleanup.main Sample.broken_listing) = 1 /\
  Cleanup.attempted (snd (Cleanup.main Sample.broken_listing)) = [].
Proof.
  destruct (X14_failed_listing_deletes_nothing Sample.broken_listing
              (fst (Cleanup.listBlobsFlat Sample.broken_listing))
              "read ECONNRESET" eq_refl eq_refl) as (H1 & H2 & _).
  split; assumption.
Defined.

(** X15.  Over an existing, non-empty container whose listing completes,
    the sweep prints, in this order: the opening lines; one line per
    blob found; the number found; one line per blob for its delete call,
    the success line or the failure line with the cause; the summary
    with the three counts; and a closing line that says all blobs were
    deleted exactly when no call failed, none when every call failed,
    and some otherwise. *)
Theorem X15_sweep_log
    (storage : Cleanup.Storage) (blobs : list Cleanup.BlobItem) :
  Cleanup.container_exists storage = Ok true ->
  Cleanup.listBlobsFlat storage = (blobs, None) ->
  blobs <> [] ->
  Cleanup.log (snd (Cleanup.main storage)) =
    ([ Cleanup.Starting_cleanup; Cleanup.Cleaning_up_container "images";
       Cleanup.Container_exists "images" ]
     ++ SweepLog.found_lines blobs
     ++ [ Cleanup.Found_blobs_to_delete (length blobs) ]
     ++ SweepLog.deletion_lines storage 0 (map Cleanup.name blobs)
     ++ [ Cleanup.Separator; Cleanup.Cleanup_summary; Cleanup.Separator;
          Cleanup.Total_blobs_found (length blobs);
          Cleanup.Total_successfully_deleted
            (Outcome.succeeded storage 0 (map Cleanup.name blobs));
          Cleanup.Total_failed_to_delete
            (Outcome.failed storage 0 (map Cleanup.name blobs));
          Cleanup.Separator;
          SweepLog.verdict
            (Outcome.succeeded storage 0 (map Cleanup.name blobs))
            (Outcome.failed storage 0 (map Cleanup.name blobs));
          Cleanup.Cleanup_completed ])%list.
Proof.
  intros Hexists Hlist Hne.
  pose proof (succeeded_failed storage 0 (map Cleanup.name blobs)) as Hsum.
  rewrite length_map in Hsum.
  unfold Cleanup.main, Cleanup.cleanupContainer.
  rewrite Hexists, Hlist.
  assert (Hlen : Nat.eqb (length (map Cleanup.name blobs)) 0 = false).
  { destruct blobs; [contradiction|reflexivity]. }
  rewrite Hlen, delete_each_exact.
  repeat (progress (rewrite ?say_attempted, ?found_lines_attempted)).
  cbn [Cleanup.initial Cleanup.attempted length Nat.add app].
  rewrite length_map.
  set (s := Outcome.succeeded storage 0 (map Cleanup.name blobs)) in *.
  set (f := Outcome.failed storage 0 (map Cleanup.name blobs)) in *.
  rewrite (say_if (Nat.ltb 0 s)). rewrite say_if.
  cbn [snd].
  repeat (progress (rewrite ?say_log, ?found_lines_log; cbn [Cleanup.log])).
  cbn [Cleanup.initial Cleanup.log].
  assert (Hverdict :
    (if Nat.eqb s (length blobs) then Cleanup.All_blobs_deleted
     else if Nat.ltb 0 s then Cleanup.Some_blobs_not_deleted
          else Cleanup.No_blobs_deleted) = SweepLog.verdict s f).
  { unfold SweepLog.verdict.
    destruct (Nat.eqb_spec s (length blobs)), (Nat.eqb_spec f 0);
      try lia; try reflexivity.
    destruct (Nat.ltb_spec 0 s), (Nat.eqb_spec s 0); try lia; reflexivity. }
  rewrite Hverdict. rewrite <- !app_assoc. reflexivity.
Qed.

Lemma X15_sweep_log_witness :
  Cleanup.log (snd (Cleanup.main Sample.three_blobs)) =
    [ Cleanup.Starting_cleanup; Cleanup.Cleaning_up_container "images";
      Cleanup.Container_exists "images";
      Cleanup.Found "image-1.jpg" 67; Cleanup.Found "image-2.jpg" 67;
      Cleanup.Found "image-3.jpg" 67;
      Cleanup.Found_blobs_to_delete 3;
      Cleanup.Successfully_deleted "image-1.jpg";
      Cleanup.Failed_to_delete "image-2.jpg" "The specified blob does not exist.";
      Cleanup.Successfully_deleted "image-3.jpg";
      Cleanup.Separator; Cleanup.Cleanup_summary; Cleanup.Separator;
      Cleanup.Total_blobs_found 3; Cleanup.Total_successfully_deleted 2;
      Cleanup.Total_failed_to_delete 1; Cleanup.Separator;
      Cleanup.Some_blobs_not_deleted; Cleanup.Cleanup_completed ].
Proof.
  rewrite (X15_sweep_log Sample.three_blobs
             (fst (Cleanup.listBlobsFlat Sample.three_blobs))
             eq_refl eq_refl ltac:(discriminate)).
  reflexivity.
Defined.
